(** * deploy.py: release pipeline of apk-release-deploy

    A shallow embedding of [deploy.py] and the properties of its stages:
    the name formatter, the Dropbox uploader, the changelog extractor, the
    email composer and the driver that chains them.

    Conventions of the embedding.
    - A Python [str] is a [string]; each [ascii] stands for the character
      whose code point it is (0..255).  Text with code points above 255 is
      not covered.
    - A Python call either returns, raises, or leaves the process through
      [exit]; [outcome] records which.  [Unmodelled] marks the few
      library features (rich replacement fields of [str.format]) that the
      embedding does not cover.
    - The module-level dictionaries of the script, the files it reads and
      the HTTP calls it makes are threaded through a state and an
      environment ([pstate], [world]). *)

From Stdlib Require Import ZArith Lia Ascii String.
From stdpp Require Import base strings list gmap.

#[local] Set Warnings "-register-all".
#[local] Open Scope string_scope.

(** ** Outcomes of Python calls *)

Inductive exn :=
| OSError | JSONDecodeError | KeyError | IndexError | TypeError
| AttributeError | ValueError | RequestException.

Inductive outcome (A : Type) :=
| Returns (a : A)
| Raises (e : exn)
| Exits (code : Z)
| Unmodelled.
Arguments Returns {A} a.
Arguments Raises {A} e.
Arguments Exits {A} code.
Arguments Unmodelled {A}.

Definition obind {A B} (o : outcome A) (k : A -> outcome B) : outcome B :=
  match o with
  | Returns a => k a
  | Raises e => Raises e
  | Exits c => Exits c
  | Unmodelled => Unmodelled
  end.

(** ** Python [str] operations used by the script *)

Module Str.

Definition LF : ascii := "010"%char.
Definition CR : ascii := "013"%char.

Definition code (c : ascii) : nat := nat_of_ascii c.

(** [str.lower] on one character: A-Z and the Latin-1 capitals. *)
Definition lower_char (c : ascii) : ascii :=
  let n := code c in
  if (((65 <=? n) && (n <=? 90))
      || ((192 <=? n) && (n <=? 222) && negb (n =? 215)))%nat
  then ascii_of_nat (n + 32) else c.

Fixpoint map (f : ascii -> ascii) (s : string) : string :=
  match s with
  | EmptyString => EmptyString
  | String c s' => String (f c) (map f s')
  end.

Fixpoint filter (p : ascii -> bool) (s : string) : string :=
  match s with
  | EmptyString => EmptyString
  | String c s' => if p c then String c (filter p s') else filter p s'
  end.

(** [s.lower()], character by character: what [str.lower] does on a text
    of code points below 256. *)
Definition lower (s : string) : string := map lower_char s.

(** [s.startswith(p)] *)
Definition startswith (s p : string) : bool := String.prefix p s.

(** [s.endswith(p)] for a one-character [p] *)
Fixpoint endswith_char (s : string) (p : ascii) : bool :=
  match s with
  | EmptyString => false
  | String c EmptyString => Ascii.eqb c p
  | String _ s' => endswith_char s' p
  end.

(** [old] and [new] are the arguments of [str.replace]; [skip] counts the
    characters of a matched occurrence that are still to be dropped. *)
Fixpoint replace_go (old new : string) (skip : nat) (s : string) : string :=
  match s with
  | EmptyString => EmptyString
  | String c s' =>
      match skip with
      | S k => replace_go old new k s'
      | O =>
          if startswith s old
          then new +:+ replace_go old new (String.length old - 1) s'
          else String c (replace_go old new 0 s')
      end
  end.

(** [''.join] with [new] before every character and at the end: what
    [str.replace] does for an empty [old]. *)
Fixpoint interleave (new s : string) : string :=
  match s with
  | EmptyString => new
  | String c s' => new +:+ String c (interleave new s')
  end.

(** [s.replace(old, new)] *)
Definition replace (old new s : string) : string :=
  match old with
  | EmptyString => interleave new s
  | _ => replace_go old new 0 s
  end.

(** [s.split(sep)] for a non-empty [sep], as the first segment and the
    list of the following ones. *)
Fixpoint split_go (sep : string) (skip : nat) (s : string) : string * list string :=
  match s with
  | EmptyString => (EmptyString, [])
  | String c s' =>
      match skip with
      | S k => split_go sep k s'
      | O =>
          if startswith s sep
          then let '(h, t) := split_go sep (String.length sep - 1) s' in
               (EmptyString, h :: t)
          else let '(h, t) := split_go sep 0 s' in (String c h, t)
      end
  end.

Definition split (sep s : string) : outcome (list string) :=
  match sep with
  | EmptyString => Raises ValueError
  | _ => let '(h, t) := split_go sep 0 s in Returns (h :: t)
  end.

Fixpoint take (n : nat) (s : string) : string :=
  match n, s with
  | S k, String c s' => String c (take k s')
  | _, _ => EmptyString
  end.

(** [s[:stop]]: a negative [stop] counts from the end, and the bound is
    clipped to the string. *)
Definition slice_to (s : string) (stop : Z) : string :=
  let n := Z.of_nat (String.length s) in
  let stop := if (stop <? 0)%Z then Z.max 0 (stop + n) else Z.min stop n in
  take (Z.to_nat stop) s.

(** Characters for which [str.isspace] holds. *)
Definition isspace (c : ascii) : bool :=
  let n := code c in
  (((9 <=? n) && (n <=? 13)) || ((28 <=? n) && (n <=? 32))
   || (n =? 133) || (n =? 160))%nat.

(** [s.rstrip()] *)
Fixpoint rstrip (s : string) : string :=
  match s with
  | EmptyString => EmptyString
  | String c s' =>
      match rstrip s' with
      | EmptyString => if isspace c then EmptyString else String c EmptyString
      | r => String c r
      end
  end.

(** Line boundaries of [str.splitlines]. *)
Definition islinebreak (c : ascii) : bool :=
  let n := code c in
  (((10 <=? n) && (n <=? 13)) || ((28 <=? n) && (n <=? 30)) || (n =? 133))%nat.

(** [s.splitlines()]: the lines without their terminators; CR LF is one
    terminator, and a final terminator opens no further line. *)
Fixpoint splitlines (s : string) : list string :=
  match s with
  | EmptyString => []
  | String c s' =>
      if islinebreak c then
        match s' with
        | String c' s'' =>
            if Ascii.eqb c CR && Ascii.eqb c' LF
            then EmptyString :: splitlines s''
            else EmptyString :: splitlines s'
        | EmptyString => [EmptyString]
        end
      else
        match splitlines s' with
        | [] => [String c EmptyString]
        | l :: ls => String c l :: ls
        end
  end.

Fixpoint all (p : ascii -> bool) (s : string) : bool :=
  match s with
  | EmptyString => true
  | String c s' => p c && all p s'
  end.

Fixpoint any (p : ascii -> bool) (s : string) : bool :=
  match s with
  | EmptyString => false
  | String c s' => p c || any p s'
  end.

Definition isdigit (c : ascii) : bool :=
  ((48 <=? code c) && (code c <=? 57))%nat.

(** Characters that make a replacement field more than a plain name:
    conversion, format spec, attribute and index access, nesting. *)
Definition isrich (c : ascii) : bool :=
  Ascii.eqb c "!" || Ascii.eqb c ":" || Ascii.eqb c "." || Ascii.eqb c "["
  || Ascii.eqb c "{".

(** The value of the replacement field [{f}] when [format] is called with
    keyword arguments [kw] only. *)
Definition get_field (kw : gmap string string) (f : string) : outcome string :=
  if any isrich f then Unmodelled
  else match f with
       | EmptyString => Raises IndexError
       | _ => if all isdigit f then Unmodelled
              else match kw !! f with
                   | Some v => Returns v
                   | None => Raises KeyError
                   end
       end.

(** Where the scan of a format string stands: in literal text, just
    after a [{] or a [}] of literal text (a second one makes it a literal
    brace), or inside a replacement field whose text so far is [f]. *)
Inductive scan :=
| Literal
| Opening
| Closing
| Field (f : string).

Fixpoint format_go (kw : gmap string string) (at_ : scan) (t : string)
  : outcome string :=
  match t with
  | EmptyString =>
      match at_ with
      | Literal => Returns EmptyString
      | _ => Raises ValueError
      end
  | String c t' =>
      let field f :=
        if Ascii.eqb c "}"
        then obind (get_field kw f) (fun v =>
             obind (format_go kw Literal t') (fun r => Returns (v +:+ r)))
        else format_go kw (Field (f +:+ String c EmptyString)) t' in
      let literal :=
        obind (format_go kw Literal t') (fun r => Returns (String c r)) in
      match at_ with
      | Literal =>
          if Ascii.eqb c "{" then format_go kw Opening t'
          else if Ascii.eqb c "}" then format_go kw Closing t'
          else literal
      | Opening => if Ascii.eqb c "{" then literal else field EmptyString
      | Closing => if Ascii.eqb c "}" then literal else Raises ValueError
      | Field f => field f
      end
  end.

(** [t.format(k1=v1, ...)], the keyword arguments collected in [kw] *)
Definition format (t : string) (kw : gmap string string) : outcome string :=
  format_go kw Literal t.

End Str.

(** [re.sub('^#.*\n?', '', s, flags=re.MULTILINE)].  Under [MULTILINE], [^]
    matches at the start of the text and after each LF; [.] matches every
    character but LF; both quantifiers are greedy.  A match therefore
    starts at a [#] that opens a line and runs to the end of that line,
    its LF included; matches are replaced by the empty string, left to
    right.  [bol] tells that the scan is at the beginning of a line,
    [inside] that it is within a match. *)
Fixpoint sub_heading_go (bol inside : bool) (s : string) : string :=
  match s with
  | EmptyString => EmptyString
  | String c s' =>
      if inside then
        if Ascii.eqb c Str.LF then sub_heading_go true false s'
        else sub_heading_go false true s'
      else if bol && Ascii.eqb c "#" then sub_heading_go false true s'
      else String c (sub_heading_go (Ascii.eqb c Str.LF) false s')
  end.

Definition sub_heading (s : string) : string := sub_heading_go true false s.

(** ** Python objects *)

(** The objects the script handles: what [json.load] and [r.json()]
    yield, what the module-level dictionaries hold, and what the stages
    return. *)
Inductive value :=
| VNone
| VBool (b : bool)
| VNum (lexeme : string)
| VStr (s : string)
| VList (xs : list value)
| VDict (m : gmap string value).

Definition is_None (v : value) : bool :=
  match v with VNone => true | _ => false end.

(** [v[0]] *)
Definition getitem0 (v : value) : outcome value :=
  match v with
  | VList (x :: _) => Returns x
  | VList [] => Raises IndexError
  | VStr (String c _) => Returns (VStr (String c EmptyString))
  | VStr EmptyString => Raises IndexError
  | VDict _ => Raises KeyError
  | _ => Raises TypeError
  end.

(** [v[k]] for a string key [k] *)
Definition getitem (k : string) (v : value) : outcome value :=
  match v with
  | VDict m => match m !! k with
               | Some x => Returns x
               | None => Raises KeyError
               end
  | _ => Raises TypeError
  end.

(** [os.path.join(a, b)] on a POSIX system *)
Definition os_path_join (a b : string) : string :=
  if Str.startswith b "/" then b
  else match a with
       | EmptyString => a +:+ b
       | _ => if Str.endswith_char a "/" then a +:+ b else a +:+ "/" +:+ b
       end.

(** ** Environment, state and the monad of the script *)

(** A request body or header value: literal text, the text
    [json.dumps(v)] (kept as the object it serialises), or the bytes of an
    opened file. *)
Inductive payload :=
| Text (s : string)
| Dumps (v : value)
| FileBytes (content : string).

Record request := {
  url : string;
  data : payload;
  headers : gmap string payload
}.

(** A response: [r.status_code], and the object [r.json()] yields when
    the body parses. *)
Record response := {
  status_code : Z;
  json_body : option value
}.

Inductive event :=
| Opened (path : string)
| Posted (rq : request) (r : option response)
| Printed (line : string).

(** The collaborators: the files, the JSON parser applied to a file's
    text, and the HTTP peers, which may answer by what happened so far
    ([None]: the call raises). *)
Record world := {
  files : gmap string string;
  json_loads : string -> option value;
  post : list event -> request -> option response
}.

(** The module-level dictionaries and the observable events so far. *)
Record pstate := {
  DROPBOX_UPLOAD_ARGS : gmap string value;
  DROPBOX_SHARE_DATA : gmap string value;
  DROPBOX_DELETE_DATA : gmap string value;
  ZAPIER_SEND_DATA : gmap string value;
  trace : list event
}.

Definition DROPBOX_ERROR_CODE : Z := 1.
Definition ZAPIER_ERROR_CODE : Z := 2.
Definition TEMPLATE_ERROR_CODE : Z := 3.
Definition CHANGES_ERROR_CODE : Z := 4.

Definition DROPBOX_UPLOAD_URL := "https://content.dropboxapi.com/2/files/upload".
Definition DROPBOX_SHARE_URL :=
  "https://api.dropboxapi.com/2/sharing/create_shared_link_with_settings".
Definition DROPBOX_DELETE_URL := "https://api.dropboxapi.com/2/files/delete_v2".

(** The state when the module has been loaded. *)
Definition init : pstate := {|
  DROPBOX_UPLOAD_ARGS :=
    <["path" := VNone]> (<["mode" := VStr "overwrite"]>
    (<["autorename" := VBool true]> (<["strict_conflict" := VBool true]> ∅)));
  DROPBOX_SHARE_DATA :=
    <["path" := VNone]>
    (<["settings" := VDict (<["requested_visibility" := VStr "public"]> ∅)]> ∅);
  DROPBOX_DELETE_DATA := <["path" := VNone]> ∅;
  ZAPIER_SEND_DATA :=
    <["to" := VNone]> (<["subject" := VNone]> (<["body" := VNone]> ∅));
  trace := []
|}.

Definition M (A : Type) : Type := pstate -> outcome A * pstate.

Definition ret {A} (a : A) : M A := fun st => (Returns a, st).

Definition bind {A B} (c : M A) (k : A -> M B) : M B :=
  fun st =>
    match c st with
    | (Returns a, st') => k a st'
    | (Raises e, st') => (Raises e, st')
    | (Exits n, st') => (Exits n, st')
    | (Unmodelled, st') => (Unmodelled, st')
    end.

Notation "x <- c ;; k" := (bind c (fun x => k))
  (at level 100, c at next level, right associativity).
Notation "c ;;; k" := (bind c (fun _ => k))
  (at level 100, right associativity).

Definition lift {A} (o : outcome A) : M A := fun st => (o, st).

(** [exit(code)] *)
Definition exit {A} (code : Z) : M A := lift (Exits code).

Definition when (b : bool) (c : M unit) : M unit := if b then c else ret tt.

Definition get {A} (f : pstate -> A) : M A := fun st => (Returns (f st), st).

Definition modify (f : pstate -> pstate) : M unit := fun st => (Returns tt, f st).

(** The state [st] with the events [evs] added to its trace. *)
Definition record (evs : list event) (st : pstate) : pstate :=
  {| DROPBOX_UPLOAD_ARGS := DROPBOX_UPLOAD_ARGS st;
     DROPBOX_SHARE_DATA := DROPBOX_SHARE_DATA st;
     DROPBOX_DELETE_DATA := DROPBOX_DELETE_DATA st;
     ZAPIER_SEND_DATA := ZAPIER_SEND_DATA st;
     trace := trace st ++ evs |}.

Definition emit (e : event) : M unit := modify (record [e]).

Definition print (line : string) : M unit := emit (Printed line).

(** [open(path)] followed by reading the whole file *)
Definition read_file (w : world) (path : string) : M string :=
  emit (Opened path) ;;;
  match files w !! path with
  | Some text => ret text
  | None => lift (Raises OSError)
  end.

(** [requests.post(url, data=..., headers=...)] *)
Definition requests_post (w : world) (rq : request) : M response :=
  answer <- get (fun st => post w (trace st) rq) ;;
  emit (Posted rq answer) ;;;
  match answer with
  | Some r => ret r
  | None => lift (Raises RequestException)
  end.

(** [DROPBOX_UPLOAD_ARGS[k] = v] and its siblings *)
Definition set_upload_arg (k : string) (v : value) : M unit :=
  modify (fun st =>
    {| DROPBOX_UPLOAD_ARGS := <[k := v]> (DROPBOX_UPLOAD_ARGS st);
       DROPBOX_SHARE_DATA := DROPBOX_SHARE_DATA st;
       DROPBOX_DELETE_DATA := DROPBOX_DELETE_DATA st;
       ZAPIER_SEND_DATA := ZAPIER_SEND_DATA st;
       trace := trace st |}).

Definition set_share_data (k : string) (v : value) : M unit :=
  modify (fun st =>
    {| DROPBOX_UPLOAD_ARGS := DROPBOX_UPLOAD_ARGS st;
       DROPBOX_SHARE_DATA := <[k := v]> (DROPBOX_SHARE_DATA st);
       DROPBOX_DELETE_DATA := DROPBOX_DELETE_DATA st;
       ZAPIER_SEND_DATA := ZAPIER_SEND_DATA st;
       trace := trace st |}).

Definition set_delete_data (k : string) (v : value) : M unit :=
  modify (fun st =>
    {| DROPBOX_UPLOAD_ARGS := DROPBOX_UPLOAD_ARGS st;
       DROPBOX_SHARE_DATA := DROPBOX_SHARE_DATA st;
       DROPBOX_DELETE_DATA := <[k := v]> (DROPBOX_DELETE_DATA st);
       ZAPIER_SEND_DATA := ZAPIER_SEND_DATA st;
       trace := trace st |}).

Definition set_send_data (k : string) (v : value) : M unit :=
  modify (fun st =>
    {| DROPBOX_UPLOAD_ARGS := DROPBOX_UPLOAD_ARGS st;
       DROPBOX_SHARE_DATA := DROPBOX_SHARE_DATA st;
       DROPBOX_DELETE_DATA := DROPBOX_DELETE_DATA st;
       ZAPIER_SEND_DATA := <[k := v]> (ZAPIER_SEND_DATA st);
       trace := trace st |}).

(** [requests.codes.ok] *)
Definition codes_ok : Z := 200.

(** [r.json()] *)
Definition response_json (r : response) : outcome value :=
  match json_body r with
  | Some v => Returns v
  | None => Raises ValueError
  end.

(** [u[:-1] + '1'] for the object [u] found under ['url'] *)
Definition direct_link (u : value) : outcome value :=
  match u with
  | VStr s => Returns (VStr (Str.slice_to s (-1) +:+ "1"))
  | _ => Raises TypeError
  end.

(** ** Uploader *)

Definition upload_to_dropbox (w : world)
    (target_file_name source_file dropbox_token dropbox_folder : string) : M value :=
  dropbox_path <- lift (Str.format "/{folder}/{file_name}"
                    (<["folder" := dropbox_folder]>
                       (<["file_name" := target_file_name]> ∅))) ;;
  set_upload_arg "path" (VStr dropbox_path) ;;;
  set_share_data "path" (VStr dropbox_path) ;;;
  set_delete_data "path" (VStr dropbox_path) ;;;
  let headers : gmap string payload :=
    <["Authorization" := Text ("Bearer " +:+ dropbox_token)]>
      (<["Content-Type" := Text "application/json"]> ∅) in
  delete_data <- get DROPBOX_DELETE_DATA ;;
  requests_post w {| url := DROPBOX_DELETE_URL;
                     data := Dumps (VDict delete_data);
                     headers := headers |} ;;;
  upload_args <- get DROPBOX_UPLOAD_ARGS ;;
  let headers : gmap string payload :=
    <["Authorization" := Text ("Bearer " +:+ dropbox_token)]>
      (<["Dropbox-API-Arg" := Dumps (VDict upload_args)]>
         (<["Content-Type" := Text "application/octet-stream"]> ∅)) in
  content <- read_file w source_file ;;
  r <- requests_post w {| url := DROPBOX_UPLOAD_URL;
                          data := FileBytes content;
                          headers := headers |} ;;
  if negb (status_code r =? codes_ok)%Z then
    print "Failed: upload file to Dropbox" ;;; ret VNone
  else
    let headers : gmap string payload :=
      <["Authorization" := Text ("Bearer " +:+ dropbox_token)]>
        (<["Content-Type" := Text "application/json"]> ∅) in
    share_data <- get DROPBOX_SHARE_DATA ;;
    r <- requests_post w {| url := DROPBOX_SHARE_URL;
                            data := Dumps (VDict share_data);
                            headers := headers |} ;;
    if negb (status_code r =? codes_ok)%Z then
      print "Failed: get share link from Dropbox" ;;; ret VNone
    else
      body <- lift (response_json r) ;;
      u <- lift (getitem "url" body) ;;
      lift (direct_link u).

(** ** Notifier *)

Definition send_email (w : world) (zapier_hook to : string) (subject body : value)
  : M bool :=
  set_send_data "to" (VStr to) ;;;
  set_send_data "subject" subject ;;;
  set_send_data "body" body ;;;
  let headers : gmap string payload :=
    <["Content-Type" := Text "application/json"]> ∅ in
  send_data <- get ZAPIER_SEND_DATA ;;
  r <- requests_post w {| url := zapier_hook;
                          data := Dumps (VDict send_data);
                          headers := headers |} ;;
  ret (status_code r =? codes_ok)%Z.

(** ** Artifact locator *)

Definition json_load (w : world) (text : string) : outcome value :=
  match json_loads w text with
  | Some v => Returns v
  | None => Raises JSONDecodeError
  end.

Definition get_app (w : world) (release_dir : string) : M (value * string) :=
  let output_path := os_path_join release_dir "output.json" in
  app_output <- read_file w output_path ;;
  json_data <- lift (json_load w app_output) ;;
  app_version <- lift (obind (getitem0 json_data) (fun e =>
                       obind (getitem "apkInfo" e) (getitem "versionName"))) ;;
  output_file <- lift (obind (getitem0 json_data) (fun e =>
                       obind (getitem "apkInfo" e) (getitem "outputFile"))) ;;
  match output_file with
  | VStr f => ret (app_version, os_path_join release_dir f)
  | _ => lift (Raises TypeError)
  end.

(** ** Name formatter *)

Definition get_target_file_name (app_name app_version : string) : outcome string :=
  let app_name := Str.lower app_name in
  let app_version := Str.replace "." "_" app_version in
  obind (Str.format "{name}_{version}.apk"
           (<["name" := app_name]> (<["version" := app_version]> ∅)))
    (fun r => Returns (Str.replace " " EmptyString r)).

(** ** Changelog extractor *)

(** Lines 181-184: from the text of the changelog to the latest changes. *)
Definition latest_version_changes (change_log : string) : outcome string :=
  obind (Str.split "##" change_log) (fun segments =>
    match segments !! 0%nat with
    | Some first => Returns (sub_heading (Str.slice_to first (-1)))
    | None => Raises IndexError
    end).

Definition get_changes (w : world) (change_log_path : string) : M value :=
  change_log <- read_file w change_log_path ;;
  changes <- lift (latest_version_changes change_log) ;;
  ret (VStr changes).

(** ** Email composer *)

Definition target_subject : Z := 1.
Definition target_body : Z := 2.

(** One turn of the loop over the lines: the state is
    [(target, subject, body)]. *)
Definition collect (st : Z * string * string) (line : string) : Z * string * string :=
  let '(target, subject, body) := st in
  if Str.startswith line "#" then
    if Str.startswith line "#subject" then (target_subject, subject, body)
    else if Str.startswith line "#body" then (target_body, subject, body)
    else (target, subject, body)
  else
    if (target =? target_subject)%Z
    then (target, subject +:+ line +:+ String Str.LF EmptyString, body)
    else if (target =? target_body)%Z
    then (target, subject, body +:+ line +:+ String Str.LF EmptyString)
    else (target, subject, body).

(** Lines 200-205 and 219-231: from the substituted template to the pair
    (subject, body). *)
Definition sections (template : string) : string * string :=
  let '(_, subject, body) :=
    fold_left collect (Str.splitlines template) (0%Z, EmptyString, EmptyString) in
  (Str.rstrip subject, Str.rstrip body).

(** Lines 211-216: the placeholders replaced with data. *)
Definition substitute (raw app_name app_version app_url changes : string)
  : outcome string :=
  Str.format raw
    (<["app_download_url" := app_url]> (<["change_log" := changes]>
    (<["app_name" := app_name]> (<["app_version" := app_version]> ∅)))).

Definition get_email (w : world)
    (app_name app_version app_url changes template_file_path : string)
  : M (value * value) :=
  raw <- read_file w template_file_path ;;
  template <- lift (substitute raw app_name app_version app_url changes) ;;
  let '(subject, body) := sections template in
  ret (VStr subject, VStr body).

(** ** Driver *)

(** The eight options of the command line, as [parse_args] returns them
    (lines 234-245).  The parsing itself is not part of [main] below:
    [parse_args] leaves with exit code 2 on a missing or unknown option,
    and with 0 on [-h], before any stage runs. *)
Record options := {
  release_dir : string;
  app_name : string;
  changelog_file : string;
  template_file : string;
  dropbox_token : string;
  dropbox_folder : string;
  zapier_hook : string;
  email_to : string
}.

(** A [str] argument as the callee uses it.  The stages call [str]
    methods on their arguments, or hand them to [format], which renders a
    [str] as itself; [missing] is what the callee does with any other
    object. *)
Definition as_str (missing : outcome string) (v : value) : outcome string :=
  match v with
  | VStr s => Returns s
  | _ => missing
  end.

(** Lines 247-269: the stages, run on the parsed options. *)
Definition main (w : world) (o : options) : M unit :=
  app <- get_app w (release_dir o) ;;
  let '(app_version, app_file) := app in
  target_app_file <- lift (obind (as_str (Raises AttributeError) app_version)
                             (get_target_file_name (app_name o))) ;;
  file_url <- upload_to_dropbox w target_app_file app_file
                (dropbox_token o) (dropbox_folder o) ;;
  when (is_None file_url) (exit DROPBOX_ERROR_CODE) ;;;
  latest_changes <- get_changes w (changelog_file o) ;;
  when (is_None latest_changes) (exit CHANGES_ERROR_CODE) ;;;
  version_text <- lift (as_str Unmodelled app_version) ;;
  url_text <- lift (as_str Unmodelled file_url) ;;
  changes_text <- lift (as_str Unmodelled latest_changes) ;;
  email <- get_email w (app_name o) version_text url_text changes_text
             (template_file o) ;;
  let '(subject, body) := email in
  when (is_None subject || is_None body) (exit TEMPLATE_ERROR_CODE) ;;;
  sent <- send_email w (zapier_hook o) (email_to o) subject body ;;
  when (negb sent) (exit ZAPIER_ERROR_CODE).

(** * Vocabulary of the statements *)

(** ** Texts *)

Definition join (ls : list string) : string :=
  fold_right String.append EmptyString ls.

(** [s] without its last character. *)
Fixpoint drop_last (s : string) : string :=
  match s with
  | EmptyString => EmptyString
  | String c EmptyString => EmptyString
  | String c s' => String c (drop_last s')
  end.

(** The part of [s] before the first occurrence of [sep]; all of [s] when
    there is none. *)
Fixpoint before (sep s : string) : string :=
  match s with
  | EmptyString => EmptyString
  | String c s' => if String.prefix sep s then EmptyString else String c (before sep s')
  end.

(** The first line of [s], its LF included, and what follows it. *)
Fixpoint line_end (s : string) : string :=
  match s with
  | EmptyString => EmptyString
  | String c s' =>
      if Ascii.eqb c Str.LF then String c EmptyString else String c (line_end s')
  end.

Fixpoint after_line (s : string) : string :=
  match s with
  | EmptyString => EmptyString
  | String c s' => if Ascii.eqb c Str.LF then s' else after_line s'
  end.

(** The lines of [s], each with its LF when it has one. *)
Fixpoint lines_keep (s : string) : list string :=
  match s with
  | EmptyString => []
  | String c s' =>
      if Ascii.eqb c Str.LF then String c EmptyString :: lines_keep s'
      else match lines_keep s' with
           | [] => [String c EmptyString]
           | l :: ls => String c l :: ls
           end
  end.

Definition is_heading (line : string) : bool := Str.startswith line "#".

(** [s] without its lines that start with [#]. *)
Definition drop_headings (s : string) : string :=
  join (List.filter (fun l => negb (is_heading l)) (lines_keep s)).

(** [s] without its trailing LF, when it has one: the reading of
    "its trailing newline dropped" that leaves other texts alone. *)
Definition chomp (s : string) : string :=
  if Str.endswith_char s Str.LF then drop_last s else s.

(** The changelog extraction as the specification words it. *)
Definition changes_as_specified (change_log : string) : string :=
  drop_headings (chomp (before "##" change_log)).

(** ** Name formatter *)

Definition dot_to_underscore (c : ascii) : ascii :=
  if Ascii.eqb c "." then "_"%char else c.

Definition not_space (c : ascii) : bool := negb (Ascii.eqb c " ").

(** The file name as the specification words it, character by character. *)
Definition target_file_name_spec (app_name app_version : string) : string :=
  Str.filter not_space
    (Str.map Str.lower_char app_name +:+ "_"
     +:+ Str.map dot_to_underscore app_version +:+ ".apk").

(** ** Template sections *)

(** The section a marker line switches to. *)
Definition marker (line : string) : option Z :=
  if Str.startswith line "#subject" then Some target_subject
  else if Str.startswith line "#body" then Some target_body
  else None.

(** The section that is active after the lines [ls]: the one of the last
    marker line, [0] when there is none. *)
Definition active (ls : list string) : Z :=
  List.last (omap marker ls) 0%Z.

(** The lines of [ls] that go to section [t], each with its LF: [keep]
    tells which lines are emitted at all. *)
Definition emitted (keep : string -> bool) (t : Z) (ls : list string) : list string :=
  flat_map
    (fun i =>
       match ls !! i with
       | Some l =>
           if keep l && (active (firstn i ls) =? t)%Z
           then [l +:+ String Str.LF EmptyString] else []
       | None => []
       end)
    (seq 0 (length ls)).

(** The pair (subject, body) when the lines selected by [keep] are
    emitted. *)
Definition sections_by (keep : string -> bool) (template : string) : string * string :=
  let ls := Str.splitlines template in
  (Str.rstrip (join (emitted keep target_subject ls)),
   Str.rstrip (join (emitted keep target_body ls))).

(** What the code emits: the lines that do not start with [#]. *)
Definition plain_line (line : string) : bool := negb (Str.startswith line "#").

(** What the specification says is emitted: every line that is not a
    marker line. *)
Definition not_marker_line (line : string) : bool :=
  match marker line with Some _ => false | None => true end.

(** No line of [text] is a marker line. *)
Definition no_marker_line (text : string) : bool :=
  forallb not_marker_line (Str.splitlines text).

(** ** Runs *)

(** The events of a run from [st] to [st']. *)
Definition events_since (st st' : pstate) : list event :=
  skipn (length (trace st)) (trace st').

(** The addresses posted to, in order. *)
Fixpoint posted_urls (evs : list event) : list string :=
  match evs with
  | [] => []
  | Posted rq _ :: evs' => url rq :: posted_urls evs'
  | _ :: evs' => posted_urls evs'
  end.

(** The files opened, in order. *)
Fixpoint opened_paths (evs : list event) : list string :=
  match evs with
  | [] => []
  | Opened p :: evs' => p :: opened_paths evs'
  | _ :: evs' => opened_paths evs'
  end.

(** [ensures c Q E]: whenever [c] returns, its result satisfies [Q];
    whenever it leaves through [exit], the code satisfies [E]. *)
Definition ensures {A} (c : M A) (Q : A -> Prop) (E : Z -> Prop) : Prop :=
  forall st,
    match fst (c st) with
    | Returns a => Q a
    | Exits code => E code
    | _ => True
    end.

(** ** Runs of the uploader *)

Definition dropbox_path (dropbox_folder target_file_name : string) : string :=
  "/" +:+ dropbox_folder +:+ "/" +:+ target_file_name.

(** The module-level dictionaries once the uploader has stored the path. *)
Definition with_path (path : string) (st : pstate) : pstate :=
  {| DROPBOX_UPLOAD_ARGS := <["path" := VStr path]> (DROPBOX_UPLOAD_ARGS st);
     DROPBOX_SHARE_DATA := <["path" := VStr path]> (DROPBOX_SHARE_DATA st);
     DROPBOX_DELETE_DATA := <["path" := VStr path]> (DROPBOX_DELETE_DATA st);
     ZAPIER_SEND_DATA := ZAPIER_SEND_DATA st;
     trace := trace st |}.

Definition json_headers (dropbox_token : string) : gmap string payload :=
  <["Authorization" := Text ("Bearer " +:+ dropbox_token)]>
    (<["Content-Type" := Text "application/json"]> ∅).

Definition delete_call (st : pstate) (dropbox_token : string) : request :=
  {| url := DROPBOX_DELETE_URL;
     data := Dumps (VDict (DROPBOX_DELETE_DATA st));
     headers := json_headers dropbox_token |}.

Definition upload_call (st : pstate) (dropbox_token content : string) : request :=
  {| url := DROPBOX_UPLOAD_URL;
     data := FileBytes content;
     headers :=
       <["Authorization" := Text ("Bearer " +:+ dropbox_token)]>
         (<["Dropbox-API-Arg" := Dumps (VDict (DROPBOX_UPLOAD_ARGS st))]>
            (<["Content-Type" := Text "application/octet-stream"]> ∅)) |}.

Definition share_call (st : pstate) (dropbox_token : string) : request :=
  {| url := DROPBOX_SHARE_URL;
     data := Dumps (VDict (DROPBOX_SHARE_DATA st));
     headers := json_headers dropbox_token |}.

(** [upload_run w source token st evs res]: from [st], where the path is
    stored already, the uploader makes the events [evs] and ends with
    [res].  One rule per way through the function. *)
Inductive upload_run (w : world) (source_file dropbox_token : string) (st : pstate)
  : list event -> outcome value -> Prop :=
| run_delete_raises :
    post w (trace st) (delete_call st dropbox_token) = None ->
    upload_run w source_file dropbox_token st
      [Posted (delete_call st dropbox_token) None]
      (Raises RequestException)
| run_open_fails r0 :
    post w (trace st) (delete_call st dropbox_token) = Some r0 ->
    files w !! source_file = None ->
    upload_run w source_file dropbox_token st
      [Posted (delete_call st dropbox_token) (Some r0); Opened source_file]
      (Raises OSError)
| run_upload_raises r0 content :
    let evs := [Posted (delete_call st dropbox_token) (Some r0); Opened source_file] in
    post w (trace st) (delete_call st dropbox_token) = Some r0 ->
    files w !! source_file = Some content ->
    post w (trace st ++ evs) (upload_call st dropbox_token content) = None ->
    upload_run w source_file dropbox_token st
      (evs ++ [Posted (upload_call st dropbox_token content) None])
      (Raises RequestException)
| run_upload_refused r0 content r1 :
    let evs := [Posted (delete_call st dropbox_token) (Some r0); Opened source_file] in
    post w (trace st) (delete_call st dropbox_token) = Some r0 ->
    files w !! source_file = Some content ->
    post w (trace st ++ evs) (upload_call st dropbox_token content) = Some r1 ->
    status_code r1 <> codes_ok ->
    upload_run w source_file dropbox_token st
      (evs ++ [Posted (upload_call st dropbox_token content) (Some r1);
               Printed "Failed: upload file to Dropbox"])
      (Returns VNone)
| run_share_raises r0 content r1 :
    let evs := [Posted (delete_call st dropbox_token) (Some r0); Opened source_file;
                Posted (upload_call st dropbox_token content) (Some r1)] in
    post w (trace st) (delete_call st dropbox_token) = Some r0 ->
    files w !! source_file = Some content ->
    status_code r1 = codes_ok ->
    post w (trace st ++ evs) (share_call st dropbox_token) = None ->
    upload_run w source_file dropbox_token st
      (evs ++ [Posted (share_call st dropbox_token) None])
      (Raises RequestException)
| run_share_refused r0 content r1 r2 :
    let evs := [Posted (delete_call st dropbox_token) (Some r0); Opened source_file;
                Posted (upload_call st dropbox_token content) (Some r1)] in
    post w (trace st) (delete_call st dropbox_token) = Some r0 ->
    files w !! source_file = Some content ->
    status_code r1 = codes_ok ->
    post w (trace st ++ evs) (share_call st dropbox_token) = Some r2 ->
    status_code r2 <> codes_ok ->
    upload_run w source_file dropbox_token st
      (evs ++ [Posted (share_call st dropbox_token) (Some r2);
               Printed "Failed: get share link from Dropbox"])
      (Returns VNone)
| run_shared r0 content r1 r2 :
    let evs := [Posted (delete_call st dropbox_token) (Some r0); Opened source_file;
                Posted (upload_call st dropbox_token content) (Some r1)] in
    post w (trace st) (delete_call st dropbox_token) = Some r0 ->
    files w !! source_file = Some content ->
    status_code r1 = codes_ok ->
    post w (trace st ++ evs) (share_call st dropbox_token) = Some r2 ->
    status_code r2 = codes_ok ->
    upload_run w source_file dropbox_token st
      (evs ++ [Posted (share_call st dropbox_token) (Some r2)])
      (obind (response_json r2) (fun body =>
         obind (getitem "url" body) direct_link)).

(** The upload arguments: the path, mode [overwrite], [autorename] as
    given, [strict_conflict] on. *)
Definition upload_args (autorename : bool) (path : string) (args : gmap string value)
  : Prop :=
  args !! "path" = Some (VStr path)
  /\ args !! "mode" = Some (VStr "overwrite")
  /\ args !! "autorename" = Some (VBool autorename)
  /\ args !! "strict_conflict" = Some (VBool true).

(** ** A release, for examples *)

Module Example.

Definition descriptor : value :=
  VList [VDict (<["apkInfo" :=
                   VDict (<["versionName" := VStr "1.03"]>
                            (<["outputFile" := VStr "app.apk"]> ∅))]> ∅)].

Definition changelog : string := "# Release
Fixed bug
##
old".

Definition template : string := "#subject
Hello {app_name}
#body
Version {app_version} ready: {app_download_url}".

Definition disk : gmap string string :=
  <["build/output.json" := "[descriptor]"]>
    (<["build/app.apk" := "PK"]>
       (<["CHANGELOG.md" := changelog]>
          (<["mail.txt" := template]>
             (<["bare.txt" := "{change_log}"]>
                (<["notes.txt" := "ab"]>
                   (<["comment.txt" := "#subject
#hello
world"]> ∅)))))).

(** Peers that answer every call, with the given statuses for the upload
    and the share-link call and the given shared link. *)
Definition answer (upload_status share_status : Z) (link : string)
    (_ : list event) (rq : request) : option response :=
  Some {| status_code :=
            if String.eqb (url rq) DROPBOX_UPLOAD_URL then upload_status
            else if String.eqb (url rq) DROPBOX_SHARE_URL then share_status
            else 200%Z;
          json_body := Some (VDict (<["url" := VStr link]> ∅)) |}.

Definition w (upload_status share_status : Z) (link : string) : world :=
  {| files := disk;
     json_loads := fun _ => Some descriptor;
     post := answer upload_status share_status link |}.

Definition o : options :=
  {| release_dir := "build";
     app_name := "MyApp";
     changelog_file := "CHANGELOG.md";
     template_file := "mail.txt";
     dropbox_token := "token";
     dropbox_folder := "releases";
     zapier_hook := "https://hooks.zapier.com/hooks/catch/1/";
     email_to := "team@example.org" |}.

End Example.

(** ** Vocabulary of the further properties *)

(** [heading_from bol s]: some line of [s] starts with [#], the first
    character of [s] opening a line when [bol] holds. *)
Fixpoint heading_from (bol : bool) (s : string) : bool :=
  match s with
  | EmptyString => false
  | String c s' => (bol && Ascii.eqb c "#") || heading_from (Ascii.eqb c Str.LF) s'
  end.

Definition is_brace (c : ascii) : bool := Ascii.eqb c "{" || Ascii.eqb c "}".

(** An ASCII character.  On a text of such characters [str.lower] works
    character by character, as [Str.lower] does; beyond them it can look
    at the neighbours of a letter (the capital sigma becomes its final
    form at the end of a word). *)
Definition is_ascii (c : ascii) : bool := (Str.code c <? 128)%nat.

(** A replacement field that is a plain name: no brace, no conversion,
    format spec, attribute or index, and not a number (nor empty). *)
Definition plain_name (f : string) : bool :=
  negb (Str.any is_brace f) && negb (Str.any Str.isrich f)
  && negb (Str.all Str.isdigit f).

(** What [get_email] passes to [format] under the name [f]. *)
Definition placeholder (f app_name app_version app_url changes : string)
  : option string :=
  if String.eqb f "app_download_url" then Some app_url
  else if String.eqb f "change_log" then Some changes
  else if String.eqb f "app_name" then Some app_name
  else if String.eqb f "app_version" then Some app_version
  else None.

(** The last character of [s] is a whitespace character. *)
Fixpoint ends_with_space (s : string) : bool :=
  match s with
  | EmptyString => false
  | String c EmptyString => Str.isspace c
  | String _ s' => ends_with_space s'
  end.

(** No line of [text] begins with [mark]. *)
Definition no_line_with (mark text : string) : bool :=
  forallb (fun l => negb (Str.startswith l mark)) (Str.splitlines text).

Definition bearer (rq : request) (dropbox_token : string) : Prop :=
  headers rq !! "Authorization" = Some (Text ("Bearer " +:+ dropbox_token)).

Definition authorized (dropbox_token : string) (e : event) : Prop :=
  match e with
  | Posted rq _ => bearer rq dropbox_token
  | _ => True
  end.

(** The module-level dictionaries once the notifier has stored the mail. *)
Definition with_mail (to : string) (subject body : value) (st : pstate) : pstate :=
  {| DROPBOX_UPLOAD_ARGS := DROPBOX_UPLOAD_ARGS st;
     DROPBOX_SHARE_DATA := DROPBOX_SHARE_DATA st;
     DROPBOX_DELETE_DATA := DROPBOX_DELETE_DATA st;
     ZAPIER_SEND_DATA :=
       <["body" := body]> (<["subject" := subject]>
         (<["to" := VStr to]> (ZAPIER_SEND_DATA st)));
     trace := trace st |}.

Definition send_call (st : pstate) (zapier_hook : string) : request :=
  {| url := zapier_hook;
     data := Dumps (VDict (ZAPIER_SEND_DATA st));
     headers := <["Content-Type" := Text "application/json"]> ∅ |}.

(** The payload of a mail. *)
Definition mail (to subject body : value) : gmap string value :=
  <["to" := to]> (<["subject" := subject]> (<["body" := body]> ∅)).

(** An outcome that is neither [exit] nor outside the embedding. *)
Definition settled {A} (r : outcome A) : Prop :=
  match r with
  | Returns _ | Raises _ => True
  | _ => False
  end.

(** ** Further releases, for examples *)

Module Sample.

(** An answer with the given status: without a JSON body, or with a
    shared link. *)
Definition plain (status : Z) : response :=
  {| status_code := status; json_body := None |}.

Definition linked (status : Z) (link : string) : response :=
  {| status_code := status;
     json_body := Some (VDict (<["url" := VStr link]> ∅)) |}.

(** Peers that answer by the address called ([None]: the call raises). *)
Definition peers (delete upload share hook : option response)
    (_ : list event) (rq : request) : option response :=
  if String.eqb (url rq) DROPBOX_DELETE_URL then delete
  else if String.eqb (url rq) DROPBOX_UPLOAD_URL then upload
  else if String.eqb (url rq) DROPBOX_SHARE_URL then share
  else hook.

Definition disk : gmap string string :=
  <["HISTORY.md" := "## 1.03
Fixed bug
"]> Example.disk.

Definition w (disk : gmap string string) (descriptor : option value)
    (delete upload share hook : option response) : world :=
  {| files := disk;
     json_loads := fun _ => descriptor;
     post := peers delete upload share hook |}.

End Sample.

(** * Properties *)

(** ** Texts *)

Lemma append_cons c s t : String c s +:+ t = String c (s +:+ t).
Proof. reflexivity. Qed.

Lemma append_nil_r s : s +:+ EmptyString = s.
Proof. induction s as [|c s IH]; [reflexivity | now rewrite append_cons, IH]. Qed.

Lemma append_assoc s t u : (s +:+ t) +:+ u = s +:+ (t +:+ u).
Proof. induction s as [|c s IH]; [reflexivity | now rewrite !append_cons, IH]. Qed.

Lemma prefix_empty s : String.prefix EmptyString s = true.
Proof. destruct s; reflexivity. Qed.

Lemma replace_char_char a b s :
  Str.replace (String a EmptyString) (String b EmptyString) s
  = Str.map (fun c => if Ascii.eqb c a then b else c) s.
Proof.
  unfold Str.replace.
  induction s as [|c s IH]; simpl; [reflexivity|].
  unfold Str.startswith; simpl.
  destruct (ascii_dec a c) as [->|Hne].
  - rewrite Ascii.eqb_refl, prefix_empty. simpl. now rewrite IH.
  - rewrite (proj2 (Ascii.eqb_neq c a)) by congruence. now rewrite IH.
Qed.

Lemma replace_char_empty a s :
  Str.replace (String a EmptyString) EmptyString s
  = Str.filter (fun c => negb (Ascii.eqb c a)) s.
Proof.
  unfold Str.replace.
  induction s as [|c s IH]; simpl; [reflexivity|].
  unfold Str.startswith; simpl.
  destruct (ascii_dec a c) as [->|Hne].
  - rewrite Ascii.eqb_refl, prefix_empty. simpl. now rewrite IH.
  - rewrite (proj2 (Ascii.eqb_neq c a)) by congruence. simpl. now rewrite IH.
Qed.

Lemma format_target_name x y :
  Str.format "{name}_{version}.apk" (<["name" := x]> (<["version" := y]> ∅))
  = Returns (x +:+ "_" +:+ y +:+ ".apk").
Proof.
  vm_compute. reflexivity.
Qed.


Lemma take_drop_last s : Str.take (String.length s - 1) s = drop_last s.
Proof.
  induction s as [|c s IH]; [reflexivity|].
  destruct s as [|c' s]; [reflexivity|].
  simpl in *. rewrite Nat.sub_0_r in IH. now rewrite IH.
Qed.

Lemma slice_to_minus_one s : Str.slice_to s (-1) = drop_last s.
Proof.
  unfold Str.slice_to.
  change (-1 <? 0)%Z with true. cbv iota zeta.
  replace (Z.to_nat (Z.max 0 (-1 + Z.of_nat (String.length s))))
    with (String.length s - 1)%nat by lia.
  apply take_drop_last.
Qed.

Lemma drop_last_snoc s c : drop_last (s +:+ String c EmptyString) = s.
Proof.
  induction s as [|a s IH]; [reflexivity|].
  simpl. rewrite IH. destruct s; reflexivity.
Qed.

Lemma split_go_before sep s :
  fst (Str.split_go sep 0 s) = before sep s.
Proof.
  induction s as [|c s IH]; [reflexivity|].
  cbn [Str.split_go before]. unfold Str.startswith.
  destruct (String.prefix sep (String c s)).
  - now destruct (Str.split_go sep (String.length sep - 1) s).
  - destruct (Str.split_go sep 0 s); simpl in *. now rewrite IH.
Qed.

Lemma split_first sep s :
  sep <> EmptyString ->
  exists rest, Str.split sep s = Returns (before sep s :: rest).
Proof.
  intros Hsep. unfold Str.split. destruct sep as [|a sep]; [congruence|].
  pose proof (split_go_before (String a sep) s) as H.
  destruct (Str.split_go (String a sep) 0 s) as [h t]. simpl in H. subst h.
  now exists t.
Qed.

Lemma lines_keep_unfold s :
  lines_keep s =
  match s with
  | EmptyString => []
  | _ => line_end s :: lines_keep (after_line s)
  end.
Proof.
  induction s as [|c s IH]; [reflexivity|].
  cbn [lines_keep line_end after_line].
  destruct (Ascii.eqb c Str.LF); [reflexivity|].
  rewrite IH. destruct s; reflexivity.
Qed.

Lemma startswith_char a c s :
  Str.startswith (String c s) (String a EmptyString) = Ascii.eqb c a.
Proof.
  unfold Str.startswith. cbn [String.prefix].
  destruct (ascii_dec a c) as [->|Hne].
  - now rewrite prefix_empty, Ascii.eqb_refl.
  - symmetry. apply Ascii.eqb_neq. congruence.
Qed.

Lemma line_end_head c s : exists r, line_end (String c s) = String c r.
Proof. cbn [line_end]. destruct (Ascii.eqb c Str.LF); eauto. Qed.

Lemma drop_headings_unfold c s :
  drop_headings (String c s) =
  if Ascii.eqb c "#" then drop_headings (after_line (String c s))
  else line_end (String c s) +:+ drop_headings (after_line (String c s)).
Proof.
  unfold drop_headings. rewrite (lines_keep_unfold (String c s)).
  cbn [List.filter]. unfold is_heading at 1.
  destruct (line_end_head c s) as [r ->]. rewrite startswith_char.
  destruct (Ascii.eqb c "#"); reflexivity.
Qed.

Lemma sub_heading_go_spec s :
  (forall bol, sub_heading_go bol true s = drop_headings (after_line s))
  /\ sub_heading_go false false s = line_end s +:+ drop_headings (after_line s)
  /\ sub_heading_go true false s = drop_headings s.
Proof.
  induction s as [|c s (IHin & IHmid & IHbol)]; [now repeat split|].
  assert (Hin : forall bol,
             sub_heading_go bol true (String c s)
             = drop_headings (after_line (String c s))).
  { intros bol. cbn [sub_heading_go after_line].
    destruct (Ascii.eqb c Str.LF); [apply IHbol | apply IHin]. }
  assert (Hmid : sub_heading_go false false (String c s)
                 = line_end (String c s) +:+ drop_headings (after_line (String c s))).
  { cbn [sub_heading_go after_line line_end andb].
    destruct (Ascii.eqb c Str.LF);
      [rewrite IHbol | rewrite IHmid]; reflexivity. }
  repeat split; [exact Hin | exact Hmid |].
  rewrite drop_headings_unfold.
  destruct (Ascii.eqb c "#") eqn:Hc.
  - rewrite <- (Hin false). apply Ascii.eqb_eq in Hc. now subst c.
  - rewrite <- Hmid. cbn [sub_heading_go andb]. now rewrite Hc.
Qed.

Lemma sub_heading_spec s : sub_heading s = drop_headings s.
Proof. apply sub_heading_go_spec. Qed.

Lemma latest_version_changes_spec change_log :
  latest_version_changes change_log
  = Returns (drop_headings (drop_last (before "##" change_log))).
Proof.
  unfold latest_version_changes.
  destruct (split_first "##" change_log) as [rest ->]; [discriminate|].
  cbn [obind]. cbn. now rewrite slice_to_minus_one, sub_heading_spec.
Qed.

(** ** Runs *)

Lemma record_record a b st : record b (record a st) = record (a ++ b) st.
Proof. unfold record. cbn. now rewrite app_assoc. Qed.

Lemma trace_record evs st : trace (record evs st) = (trace st ++ evs)%list.
Proof. reflexivity. Qed.

Lemma requests_post_run w rq st :
  requests_post w rq st =
  (match post w (trace st) rq with
   | Some r => Returns r
   | None => Raises RequestException
   end, record [Posted rq (post w (trace st) rq)] st).
Proof.
  unfold requests_post, bind, get, emit, modify, ret, lift.
  now destruct (post w (trace st) rq).
Qed.

Lemma read_file_run w path st :
  read_file w path st =
  (match files w !! path with
   | Some text => Returns text
   | None => Raises OSError
   end, record [Opened path] st).
Proof.
  unfold read_file, bind, emit, modify, ret, lift.
  now destruct (files w !! path).
Qed.

Lemma dropbox_path_format folder file :
  Str.format "/{folder}/{file_name}"
    (<["folder" := folder]> (<["file_name" := file]> ∅))
  = Returns (dropbox_path folder file).
Proof.
  unfold dropbox_path. rewrite <- (append_nil_r file) at 2.
  vm_compute. reflexivity.
Qed.

Lemma upload_to_dropbox_run w target source token folder st :
  let st1 := with_path (dropbox_path folder target) st in
  exists evs res,
    upload_to_dropbox w target source token folder st = (res, record evs st1)
    /\ upload_run w source token st1 evs res.
Proof.
  intros st1. unfold upload_to_dropbox.
  rewrite dropbox_path_format.
  unfold bind at 1. unfold lift at 1.
  unfold bind at 1, set_upload_arg at 1, modify at 1.
  unfold bind at 1, set_share_data at 1, modify at 1.
  unfold bind at 1, set_delete_data at 1, modify at 1.
  cbn [DROPBOX_UPLOAD_ARGS DROPBOX_SHARE_DATA DROPBOX_DELETE_DATA ZAPIER_SEND_DATA trace].
  change {| DROPBOX_UPLOAD_ARGS := _; DROPBOX_SHARE_DATA := _;
            DROPBOX_DELETE_DATA := _; ZAPIER_SEND_DATA := _; trace := _ |} with st1.
  unfold bind at 1, get at 1.
  change {| url := DROPBOX_DELETE_URL; data := _; headers := _ |}
    with (delete_call st1 token).
  unfold bind at 1. rewrite requests_post_run.
  destruct (post w (trace st1) (delete_call st1 token)) as [r0|] eqn:H0;
    [|eexists _, _; split; [reflexivity | econstructor; eassumption]].
  unfold bind at 1, get at 1.
  change (DROPBOX_UPLOAD_ARGS (record _ st1)) with (DROPBOX_UPLOAD_ARGS st1).
  unfold bind at 1. rewrite read_file_run, record_record.
  destruct (files w !! source) as [content|] eqn:Hf;
    [|eexists _, _; split; [reflexivity | econstructor; eassumption]].
  change {| url := DROPBOX_UPLOAD_URL; data := _; headers := _ |}
    with (upload_call st1 token content).
  unfold bind at 1. rewrite requests_post_run, record_record, trace_record.
  destruct (post w _ (upload_call st1 token content)) as [r1|] eqn:H1;
    [|eexists _, _; split; [reflexivity | econstructor; eassumption]].
  destruct (status_code r1 =? codes_ok)%Z eqn:Hs1; cbn [negb].
  - apply Z.eqb_eq in Hs1.
    unfold bind at 1, get at 1.
    change {| url := DROPBOX_SHARE_URL; data := _; headers := _ |}
      with (share_call st1 token).
    unfold bind at 1. rewrite requests_post_run, record_record, trace_record.
    destruct (post w _ (share_call st1 token)) as [r2|] eqn:H2;
      [|eexists _, _; split; [reflexivity | econstructor; eassumption]].
    destruct (status_code r2 =? codes_ok)%Z eqn:Hs2; cbn [negb].
    + apply Z.eqb_eq in Hs2.
      exists ([Posted (delete_call st1 token) (Some r0); Opened source;
               Posted (upload_call st1 token content) (Some r1)]
              ++ [Posted (share_call st1 token) (Some r2)])%list.
      eexists; split; [|eapply run_shared; eassumption].
      unfold bind, lift.
      destruct (response_json r2) as [body| | |]; try reflexivity. cbn [obind].
      destruct (getitem "url" body) as [u| | |]; reflexivity.
    + apply Z.eqb_neq in Hs2.
      eexists _, _; split; [|eapply run_share_refused; eassumption].
      unfold bind, print, emit, modify, ret. now rewrite record_record.
  - apply Z.eqb_neq in Hs1.
    eexists _, _; split; [|eapply run_upload_refused; eassumption].
    unfold bind, print, emit, modify, ret. now rewrite record_record.
Qed.

(** ** Template sections and the readers *)

Lemma join_app a b : join (a ++ b) = join a +:+ join b.
Proof.
  induction a as [|x a IH]; [reflexivity|].
  cbn [app]. unfold join in *. cbn [fold_right].
  now rewrite IH, append_assoc.
Qed.

Lemma marker_heading line : Str.startswith line "#" = false -> marker line = None.
Proof.
  unfold marker, Str.startswith. destruct line as [|c l]; [reflexivity|].
  cbn [String.prefix]. destruct (ascii_dec "#" c); [|reflexivity].
  now rewrite prefix_empty.
Qed.

Lemma active_snoc ls l :
  active (ls ++ [l]) = match marker l with Some t => t | None => active ls end.
Proof.
  unfold active. rewrite omap_app. cbn [omap list_omap].
  destruct (marker l) as [t|].
  - apply last_last.
  - now rewrite app_nil_r.
Qed.

Lemma emitted_snoc keep t ls l :
  emitted keep t (ls ++ [l]) =
  (emitted keep t ls
   ++ if keep l && (active ls =? t)%Z then [l +:+ String Str.LF EmptyString] else [])%list.
Proof.
  unfold emitted. rewrite length_app, Nat.add_1_r, seq_S, flat_map_app.
  cbn [flat_map Nat.add]. rewrite app_nil_r. f_equal.
  - rewrite !flat_map_concat_map. f_equal. apply map_ext_in.
    intros i Hi. apply in_seq in Hi.
    rewrite lookup_app_l by lia. rewrite take_app_le by lia. reflexivity.
  - rewrite list_lookup_middle by reflexivity.
    rewrite take_app_length. reflexivity.
Qed.

Lemma join_nil : join [] = EmptyString.
Proof. reflexivity. Qed.

Lemma join_single x : join [x] = x.
Proof. unfold join. cbn [fold_right]. apply append_nil_r. Qed.

Lemma collect_snoc ls l :
  collect (active ls,
           join (emitted plain_line target_subject ls),
           join (emitted plain_line target_body ls)) l
  = (active (ls ++ [l]),
     join (emitted plain_line target_subject (ls ++ [l])),
     join (emitted plain_line target_body (ls ++ [l]))).
Proof.
  rewrite !emitted_snoc, !join_app, active_snoc.
  unfold collect, plain_line.
  destruct (Str.startswith l "#") eqn:Hh; cbn [negb andb].
  - rewrite join_nil, !append_nil_r. unfold marker.
    destruct (Str.startswith l "#subject"); [reflexivity|].
    destruct (Str.startswith l "#body"); reflexivity.
  - rewrite (marker_heading l Hh).
    destruct (active ls =? target_subject)%Z eqn:Hs.
    + apply Z.eqb_eq in Hs. rewrite Hs.
      change (target_subject =? target_body)%Z with false.
      now rewrite join_single, join_nil, !append_nil_r.
    + destruct (active ls =? target_body)%Z;
        now rewrite ?join_single, ?join_nil, !append_nil_r.
Qed.

Lemma fold_collect ls :
  fold_left collect ls (0%Z, EmptyString, EmptyString)
  = (active ls,
     join (emitted plain_line target_subject ls),
     join (emitted plain_line target_body ls)).
Proof.
  induction ls as [|l ls IH] using rev_ind; [reflexivity|].
  rewrite fold_left_app. cbn [fold_left]. rewrite IH.
  apply collect_snoc.
Qed.

Lemma sections_spec template : sections template = sections_by plain_line template.
Proof. unfold sections, sections_by. now rewrite fold_collect. Qed.

Lemma fold_no_marker ls :
  forallb not_marker_line ls = true ->
  fold_left collect ls (0%Z, EmptyString, EmptyString) = (0%Z, EmptyString, EmptyString).
Proof.
  induction ls as [|l ls IH]; [reflexivity|].
  cbn [forallb fold_left]. intros [Hl Hls]%andb_prop.
  replace (collect (0%Z, EmptyString, EmptyString) l) with (0%Z, EmptyString, EmptyString); [now apply IH|].
  unfold not_marker_line, marker in Hl. unfold collect.
  destruct (Str.startswith l "#subject"); [discriminate|].
  destruct (Str.startswith l "#body"); [discriminate|].
  now destruct (Str.startswith l "#").
Qed.

Lemma get_email_run w app_name app_version app_url changes path st :
  get_email w app_name app_version app_url changes path st =
  (match files w !! path with
   | Some raw =>
       obind (substitute raw app_name app_version app_url changes)
         (fun template => Returns (VStr (fst (sections template)),
                                   VStr (snd (sections template))))
   | None => Raises OSError
   end, record [Opened path] st).
Proof.
  unfold get_email, bind. rewrite read_file_run.
  destruct (files w !! path) as [raw|]; [|reflexivity].
  unfold lift. destruct (substitute raw _ _ _ _) as [t| | |]; try reflexivity.
  cbn [obind]. now destruct (sections t).
Qed.

Lemma get_changes_run w path st :
  get_changes w path st =
  (match files w !! path with
   | Some change_log =>
       Returns (VStr (drop_headings (drop_last (before "##" change_log))))
   | None => Raises OSError
   end, record [Opened path] st).
Proof.
  unfold get_changes, bind. rewrite read_file_run.
  destruct (files w !! path) as [doc|]; [|reflexivity].
  unfold lift. now rewrite latest_version_changes_spec.
Qed.

(** ** What the stages ensure *)

Lemma events_since_record evs st st' :
  trace st' = trace st -> events_since st (record evs st') = evs.
Proof.
  intros H. unfold events_since. rewrite trace_record, H.
  apply drop_app_length.
Qed.

Lemma get_app_trace w dir st res st' :
  get_app w dir st = (res, st') ->
  st' = record [Opened (os_path_join dir "output.json")] st.
Proof.
  unfold get_app, bind. rewrite read_file_run.
  destruct (files w !! _); [|now intros [= _ <-]].
  unfold lift. destruct (json_load w _); try now intros [= _ <-].
  destruct (obind (getitem0 _) _); try now intros [= _ <-].
  destruct (obind (getitem0 _) _) as [[]| | |]; now intros [= _ <-].
Qed.

Section Ensures.
Context {A B : Type}.

Lemma ensures_ret (a : A) (Q : A -> Prop) E : Q a -> ensures (ret a) Q E.
Proof. intros H st. exact H. Qed.

Lemma ensures_lift (o : outcome A) (Q : A -> Prop) (E : Z -> Prop) :
  match o with Returns a => Q a | Exits code => E code | _ => True end ->
  ensures (lift o) Q E.
Proof. intros H st. exact H. Qed.

Lemma ensures_bind (c : M A) (k : A -> M B) (P : A -> Prop) (Q : B -> Prop) E :
  ensures c P E -> (forall a, P a -> ensures (k a) Q E) ->
  ensures (bind c k) Q E.
Proof.
  intros Hc Hk st. unfold bind. specialize (Hc st).
  destruct (c st) as [[a| | |] st']; cbn in *; try easy.
  now apply Hk.
Qed.

Lemma ensures_weaken (c : M A) (P Q : A -> Prop) (E F : Z -> Prop) :
  ensures c P E -> (forall a, P a -> Q a) -> (forall n, E n -> F n) ->
  ensures c Q F.
Proof.
  intros Hc HQ HE st. specialize (Hc st).
  destruct (fst (c st)); auto.
Qed.
End Ensures.

Lemma ensures_read_file w path E : ensures (read_file w path) (fun _ => True) E.
Proof. intros st. rewrite read_file_run. cbn. now destruct (files w !! path). Qed.

Lemma ensures_requests_post w rq E : ensures (requests_post w rq) (fun _ => True) E.
Proof. intros st. rewrite requests_post_run. cbn. now destruct (post w _ rq). Qed.

Lemma ensures_modify f E : ensures (modify f) (fun _ => True) E.
Proof. now intros st. Qed.

Lemma ensures_get_changes w path E :
  ensures (get_changes w path) (fun v => is_None v = false) E.
Proof. intros st. rewrite get_changes_run. cbn. now destruct (files w !! path). Qed.

Lemma get_field_no_exit kw f code : Str.get_field kw f <> Exits code.
Proof.
  unfold Str.get_field. destruct (Str.any Str.isrich f); [easy|].
  destruct f; [easy|]. destruct (Str.all Str.isdigit _); [easy|].
  now destruct (kw !! _).
Qed.

Lemma format_go_no_exit kw t : forall at_ code, Str.format_go kw at_ t <> Exits code.
Proof.
  induction t as [|c t IH]; intros at_ code; [now destruct at_|].
  assert (Hlit : obind (Str.format_go kw Str.Literal t)
                   (fun r => Returns (String c r)) <> Exits code).
  { specialize (IH Str.Literal code). now destruct (Str.format_go kw Str.Literal t). }
  assert (Hfld : forall f,
             (if Ascii.eqb c "}"
              then obind (Str.get_field kw f) (fun v =>
                   obind (Str.format_go kw Str.Literal t) (fun r => Returns (v +:+ r)))
              else Str.format_go kw (Str.Field (f +:+ String c EmptyString)) t)
             <> Exits code).
  { intros f. destruct (Ascii.eqb c "}"); [|apply IH].
    pose proof (get_field_no_exit kw f code) as Hf.
    destruct (Str.get_field kw f); cbn [obind]; try easy.
    specialize (IH Str.Literal code). now destruct (Str.format_go kw Str.Literal t). }
  cbn [Str.format_go].
  destruct at_ as [| | |f]; repeat (destruct (Ascii.eqb c _)); auto; easy.
Qed.

Lemma format_no_exit t kw code : Str.format t kw <> Exits code.
Proof. apply format_go_no_exit. Qed.

Lemma ensures_get_email w n a u c path E :
  ensures (get_email w n a u c path)
    (fun email => is_None (fst email) = false /\ is_None (snd email) = false) E.
Proof.
  intros st. rewrite get_email_run. cbn.
  destruct (files w !! path) as [raw|]; [|exact I].
  assert (H : forall code, substitute raw n a u c = Exits code -> E code)
    by (intros code Hx; now apply format_no_exit in Hx).
  destruct (substitute raw n a u c); cbn; auto.
Qed.

Lemma getitem0_no_exit v code : getitem0 v <> Exits code.
Proof. destruct v as [| | |[]|[]|]; easy. Qed.

Lemma getitem_no_exit k v code : getitem k v <> Exits code.
Proof. destruct v; try easy. cbn. now destruct (_ !! _). Qed.

Lemma obind_no_exit {A B} (o : outcome A) (k : A -> outcome B) code :
  o <> Exits code -> (forall a, k a <> Exits code) -> obind o k <> Exits code.
Proof.
  intros Ho Hk. destruct o; cbn; [apply Hk | easy | | easy].
  intros [= ->]. now apply Ho.
Qed.

Lemma ensures_lift_no_exit {A} (o : outcome A) E :
  (forall code, o <> Exits code) -> ensures (lift o) (fun _ => True) E.
Proof. intros H. apply ensures_lift. destruct o; auto. now destruct (H code). Qed.

Lemma ensures_get_app w dir E : ensures (get_app w dir) (fun _ => True) E.
Proof.
  assert (Hitem : forall json_data k code,
             obind (getitem0 json_data)
               (fun e => obind (getitem "apkInfo" e) (getitem k)) <> Exits code).
  { intros. apply obind_no_exit; [apply getitem0_no_exit|]. intros e.
    apply obind_no_exit; [apply getitem_no_exit|]. intros i. apply getitem_no_exit. }
  unfold get_app.
  eapply ensures_bind; [apply ensures_read_file|]. intros text _.
  eapply ensures_bind;
    [apply ensures_lift_no_exit; unfold json_load; now destruct (json_loads w text)|].
  intros json_data _.
  eapply ensures_bind; [apply ensures_lift_no_exit; intros; apply Hitem|].
  intros v _.
  eapply ensures_bind; [apply ensures_lift_no_exit; intros; apply Hitem|].
  intros [] _; first [now apply ensures_ret | now apply ensures_lift].
Qed.

Lemma upload_run_result w source token st evs res :
  upload_run w source token st evs res ->
  match res with
  | Returns v => v = VNone \/ exists s, v = VStr s
  | Exits _ => False
  | _ => True
  end.
Proof.
  destruct 1; try easy; try (now left).
  unfold response_json. destruct (json_body r2) as [body|]; cbn; [|easy].
  destruct body as [| | | | |m]; cbn; try easy.
  destruct (m !! "url") as [u|]; cbn; [|easy].
  destruct u; cbn; try easy. right. eauto.
Qed.

Lemma ensures_upload_to_dropbox w target source token folder E :
  ensures (upload_to_dropbox w target source token folder)
    (fun v => v = VNone \/ exists s, v = VStr s) E.
Proof.
  intros st.
  destruct (upload_to_dropbox_run w target source token folder st)
    as (evs & res & -> & Hrun).
  apply upload_run_result in Hrun. cbn. now destruct res.
Qed.

Lemma ensures_send_email w hook to subject body E :
  ensures (send_email w hook to subject body) (fun _ => True) E.
Proof.
  unfold send_email.
  do 3 (eapply ensures_bind; [apply ensures_modify|]; intros _ _).
  eapply ensures_bind with (P := fun _ => True); [now intros st|]. intros d _.
  eapply ensures_bind; [apply ensures_requests_post|]. intros r _.
  now apply ensures_ret.
Qed.

Lemma ensures_main w o :
  ensures (main w o) (fun _ => True)
    (fun code => code = DROPBOX_ERROR_CODE \/ code = ZAPIER_ERROR_CODE).
Proof.
  unfold main.
  eapply ensures_bind; [apply ensures_get_app|]. intros [app_version app_file] _.
  eapply ensures_bind with (P := fun _ => True).
  { apply ensures_lift. now destruct app_version. }
  intros target _.
  eapply ensures_bind; [apply ensures_upload_to_dropbox|]. intros file_url Hurl.
  eapply ensures_bind with (P := fun _ => True).
  { destruct Hurl as [->|[s ->]]; [now apply ensures_lift; left | now apply ensures_ret]. }
  intros _ _.
  eapply ensures_bind; [apply ensures_get_changes|]. intros latest_changes Hc.
  rewrite Hc. cbn [when].
  eapply ensures_bind with (P := fun _ => True); [now apply ensures_ret|]. intros _ _.
  eapply ensures_bind with (P := fun _ => True);
    [apply ensures_lift; now destruct app_version|]. intros version_text _.
  eapply ensures_bind with (P := fun _ => True);
    [apply ensures_lift; now destruct file_url|]. intros url_text _.
  eapply ensures_bind with (P := fun _ => True);
    [apply ensures_lift; now destruct latest_changes|]. intros changes_text _.
  eapply ensures_bind; [apply ensures_get_email|]. intros [subject body] [Hs Hb].
  cbn [fst snd] in Hs, Hb. rewrite Hs, Hb. cbn [when orb].
  eapply ensures_bind with (P := fun _ => True); [now apply ensures_ret|]. intros _ _.
  eapply ensures_bind; [apply ensures_send_email|]. intros [] _;
    [now apply ensures_ret | now apply ensures_lift; right].
Qed.

(** ** The claims *)

(** Case analysis on the membership of an event in an explicit list. *)
Ltac in_events H :=
  cbn [app] in H;
  repeat (destruct H as [H|H]; [try discriminate H|]); try contradiction H.

Lemma upload_run_refused w source token st evs res rq r :
  upload_run w source token st evs res ->
  In (Posted rq (Some r)) evs ->
  url rq = DROPBOX_UPLOAD_URL \/ url rq = DROPBOX_SHARE_URL ->
  status_code r <> codes_ok ->
  res = Returns VNone
  /\ opened_paths evs = [source]
  /\ (posted_urls evs = [DROPBOX_DELETE_URL; DROPBOX_UPLOAD_URL]
      \/ posted_urls evs
         = [DROPBOX_DELETE_URL; DROPBOX_UPLOAD_URL; DROPBOX_SHARE_URL]).
Proof.
  intros Hrun Hin Hurl Hstatus.
  destruct Hrun; in_events Hin;
    try (injection Hin as <- <-); try (now destruct Hurl);
    try (repeat split; auto; fail); congruence.
Qed.

Lemma upload_run_shared w source token st evs res rq r :
  upload_run w source token st evs res ->
  In (Posted rq (Some r)) evs ->
  url rq = DROPBOX_SHARE_URL ->
  status_code r = codes_ok ->
  res = obind (response_json r) (fun body => obind (getitem "url" body) direct_link).
Proof.
  intros Hrun Hin Hurl Hstatus.
  destruct Hrun; in_events Hin;
    try (injection Hin as <- <-); try discriminate Hurl; congruence.
Qed.

Lemma upload_run_call w source token st evs res rq r :
  upload_run w source token st evs res ->
  In (Posted rq r) evs ->
  url rq = DROPBOX_UPLOAD_URL ->
  exists content, rq = upload_call st token content.
Proof.
  intros Hrun Hin Hurl.
  destruct Hrun; in_events Hin;
    try (injection Hin as <- <-); try discriminate Hurl; eauto.
Qed.

Lemma main_upload_none w o st app_version app_file st1 target st2 :
  get_app w (release_dir o) st = (Returns (app_version, app_file), st1) ->
  obind (as_str (Raises AttributeError) app_version)
    (get_target_file_name (app_name o)) = Returns target ->
  upload_to_dropbox w target app_file (dropbox_token o) (dropbox_folder o) st1
  = (Returns VNone, st2) ->
  main w o st = (Exits DROPBOX_ERROR_CODE, st2).
Proof.
  intros Happ Htarget Hup. unfold main.
  unfold bind at 1. rewrite Happ.
  unfold bind at 1, lift at 1. rewrite Htarget.
  unfold bind at 1. rewrite Hup. reflexivity.
Qed.

Lemma upload_to_dropbox_link w target source token folder st res st' rq r body link :
  upload_to_dropbox w target source token folder st = (res, st') ->
  In (Posted rq (Some r)) (events_since st st') ->
  url rq = DROPBOX_SHARE_URL ->
  status_code r = codes_ok ->
  json_body r = Some body ->
  getitem "url" body = Returns (VStr link) ->
  res = Returns (VStr (drop_last link +:+ "1")).
Proof.
  intros Hup Hin Hurl Hstatus Hbody Hlink.
  destruct (upload_to_dropbox_run w target source token folder st)
    as (evs & res' & Hrun & Hevs).
  rewrite Hup in Hrun. injection Hrun as -> ->.
  rewrite events_since_record in Hin by reflexivity.
  rewrite (upload_run_shared _ _ _ _ _ _ _ _ Hevs Hin Hurl Hstatus).
  unfold response_json. rewrite Hbody. cbn [obind]. rewrite Hlink. cbn [obind].
  unfold direct_link. now rewrite slice_to_minus_one.
Qed.

(** C1.  When the upload call or the share-link call of the uploader gets
    an answer whose status is not the success status, the uploader returns
    [None] and the driver leaves with exit code 1 in the state the uploader
    ended in: after the descriptor, only the artifact was opened, and the
    calls posted are the Dropbox ones (delete, upload and possibly share),
    so no changelog or template was read and no webhook was posted to. *)
Theorem upload_failure_exits_1 w o app_version app_file st1 target res st2 :
  get_app w (release_dir o) init = (Returns (app_version, app_file), st1) ->
  obind (as_str (Raises AttributeError) app_version)
    (get_target_file_name (app_name o)) = Returns target ->
  upload_to_dropbox w target app_file (dropbox_token o) (dropbox_folder o) st1
  = (res, st2) ->
  (exists rq r,
      In (Posted rq (Some r)) (events_since st1 st2)
      /\ (url rq = DROPBOX_UPLOAD_URL \/ url rq = DROPBOX_SHARE_URL)
      /\ status_code r <> codes_ok) ->
  res = Returns VNone
  /\ main w o init = (Exits DROPBOX_ERROR_CODE, st2)
  /\ opened_paths (trace st2)
     = [os_path_join (release_dir o) "output.json"; app_file]
  /\ (posted_urls (trace st2) = [DROPBOX_DELETE_URL; DROPBOX_UPLOAD_URL]
      \/ posted_urls (trace st2)
         = [DROPBOX_DELETE_URL; DROPBOX_UPLOAD_URL; DROPBOX_SHARE_URL]).
Proof.
  intros Happ Htarget Hup (rq & r & Hin & Hurl & Hstatus).
  destruct (upload_to_dropbox_run w target app_file (dropbox_token o)
              (dropbox_folder o) st1) as (evs & res' & Hrun & Hevs).
  rewrite Hup in Hrun. injection Hrun as -> ->.
  rewrite events_since_record in Hin by reflexivity.
  destruct (upload_run_refused _ _ _ _ _ _ _ _ Hevs Hin Hurl Hstatus)
    as (-> & Hopened & Hposted).
  split; [reflexivity|]. split; [now apply (main_upload_none _ _ _ _ _ _ _ _ Happ Htarget)|].
  apply get_app_trace in Happ. subst st1.
  cbn [trace record with_path init app opened_paths posted_urls].
  now rewrite Hopened.
Qed.

Lemma upload_failure_exits_1_witness :
  let w := Example.w 200 409 "https://www.dropbox.com/s/k/myapp_1_03.apk?dl=0" in
  let st1 := snd (get_app w "build" init) in
  main w Example.o init
  = (Exits DROPBOX_ERROR_CODE,
     snd (upload_to_dropbox w "myapp_1_03.apk" "build/app.apk" "token" "releases" st1)).
Proof.
  intros w st1.
  refine (proj1 (proj2 (upload_failure_exits_1 w Example.o (VStr "1.03")
                          "build/app.apk" st1 "myapp_1_03.apk"
                          (fst (upload_to_dropbox w "myapp_1_03.apk" "build/app.apk"
                                  "token" "releases" st1)) _ _ _ _ _))).
  - vm_compute. reflexivity.
  - vm_compute. reflexivity.
  - apply surjective_pairing.
  - vm_compute. eexists _, _. split; [right; right; right; left; reflexivity|].
    split; [right; reflexivity | discriminate].
Defined.

(** What [get_changes] computes, for every changelog document: the first
    segment of the document split on [##], without its last character,
    whatever that character is (line 181 slices [[:-1]], it does not test
    for a newline), and without the lines that start with [#].  On the
    two documents of the specification the dropped character is the
    newline, and the results are "notes A" and "Fixed bug". *)
Lemma get_changes_spec w path change_log st :
  files w !! path = Some change_log ->
  let result := fst (get_changes w path st) in
  result = Returns (VStr (drop_headings (drop_last (before "##" change_log))))
  /\ (change_log = "notes A
##
notes B" -> result = Returns (VStr "notes A"))
  /\ (change_log = "# Release
Fixed bug
##
old" -> result = Returns (VStr "Fixed bug")).
Proof.
  intros Hfile result. subst result. rewrite get_changes_run, Hfile. cbn [fst].
  split; [reflexivity|]. split; intros ->; vm_compute; reflexivity.
Qed.

(** C2.  The code departs from the claim where the first segment does not
    end in a newline: a changelog that is the single line "Fixed bug",
    with no delimiter after it and no final newline, should yield
    "Fixed bug" (there is no trailing newline to drop, and no heading),
    but [get_changes] returns "Fixed bu"; likewise the document "ab"
    yields "a".  The function is documented to return the latest changes,
    and here it loses a character of them. *)
Theorem get_changes_cuts_last_character :
  let w := Sample.w (<["CHANGELOG.md" := "Fixed bug"]> Example.disk)
             None None None None None in
  (fst (get_changes w "CHANGELOG.md" init) = Returns (VStr "Fixed bu")
   /\ changes_as_specified "Fixed bug" = "Fixed bug")
  /\ (fst (get_changes w "notes.txt" init) = Returns (VStr "a")
      /\ changes_as_specified "ab" = "ab").
Proof. repeat split; vm_compute; reflexivity. Qed.

(** C3, as the code has it.  After the placeholders are substituted,
    [get_email] appends every line that does not start with [#], with a
    newline, to the section that is active at that line; lines that start
    with [#] are not emitted, marker or not; lines before the first
    marker go nowhere.  Subject and body are the two sections, stripped
    on the right. *)
Theorem get_email_sections w app_name app_version app_url changes path raw template st :
  files w !! path = Some raw ->
  substitute raw app_name app_version app_url changes = Returns template ->
  fst (get_email w app_name app_version app_url changes path st)
  = Returns (VStr (fst (sections_by plain_line template)),
             VStr (snd (sections_by plain_line template))).
Proof.
  intros Hfile Hsub. rewrite get_email_run, Hfile, Hsub. cbn [fst obind].
  now rewrite sections_spec.
Qed.

Lemma get_email_sections_witness :
  fst (get_email (Example.w 200 200 EmptyString) "Foo" "1.0" "http://x" "-" "comment.txt" init)
  = Returns (VStr "world", VStr EmptyString).
Proof.
  refine (get_email_sections (Example.w 200 200 EmptyString) "Foo" "1.0" "http://x" "-"
            "comment.txt" "#subject
#hello
world" "#subject
#hello
world" init _ _).
  - reflexivity.
  - reflexivity.
Defined.

(** C3, as the specification words it, fails: a line that starts with
    [#] without being a marker is not appended to the active section. *)
Lemma get_email_every_other_line_refuted :
  ~ (forall w app_name app_version app_url changes path raw template st,
        files w !! path = Some raw ->
        substitute raw app_name app_version app_url changes = Returns template ->
        fst (get_email w app_name app_version app_url changes path st)
        = Returns (VStr (fst (sections_by not_marker_line template)),
                   VStr (snd (sections_by not_marker_line template)))).
Proof.
  intros H.
  specialize (H (Example.w 200 200 EmptyString) "Foo" "1.0" "http://x" "-" "comment.txt"
                "#subject
#hello
world" "#subject
#hello
world" init eq_refl eq_refl).
  vm_compute in H. discriminate H.
Qed.

(** C4, as the code has it.  From a state whose upload arguments are
    those of the loaded module, the upload request carries, in its
    [Dropbox-API-Arg] header, the path, mode [overwrite], [autorename] on
    and [strict_conflict] on. *)
Theorem upload_args_sent w target source token folder st res st' rq r :
  DROPBOX_UPLOAD_ARGS st = DROPBOX_UPLOAD_ARGS init ->
  upload_to_dropbox w target source token folder st = (res, st') ->
  In (Posted rq r) (events_since st st') ->
  url rq = DROPBOX_UPLOAD_URL ->
  exists args,
    headers rq !! "Dropbox-API-Arg" = Some (Dumps (VDict args))
    /\ upload_args true (dropbox_path folder target) args.
Proof.
  intros Hargs Hup Hin Hurl.
  destruct (upload_to_dropbox_run w target source token folder st)
    as (evs & res' & Hrun & Hevs).
  rewrite Hup in Hrun. injection Hrun as -> ->.
  rewrite events_since_record in Hin by reflexivity.
  destruct (upload_run_call _ _ _ _ _ _ _ _ Hevs Hin Hurl) as [content ->].
  eexists. split.
  - unfold upload_call. cbn [headers]. now simplify_map_eq.
  - cbn [with_path DROPBOX_UPLOAD_ARGS]. rewrite Hargs.
    repeat split; now simplify_map_eq.
Qed.

Lemma upload_args_sent_witness :
  exists args,
    headers (upload_call (with_path "/releases/myapp_1_03.apk" init) "token" "PK")
      !! "Dropbox-API-Arg" = Some (Dumps (VDict args))
    /\ upload_args true "/releases/myapp_1_03.apk" args.
Proof.
  refine (upload_args_sent
            (Example.w 200 200 "https://www.dropbox.com/s/k/myapp_1_03.apk?dl=0")
            "myapp_1_03.apk" "build/app.apk" "token" "releases" init _ _ _
            (Some {| status_code := 200;
                     json_body :=
                       Some (VDict (<["url" := VStr "https://www.dropbox.com/s/k/myapp_1_03.apk?dl=0"]> ∅)) |})
            _ _ _ _).
  - reflexivity.
  - apply surjective_pairing.
  - vm_compute. right; right; left; reflexivity.
  - reflexivity.
Defined.

(** C4, as the specification words it, fails: the upload request of a
    run from the loaded module does not carry [autorename] off. *)
Lemma upload_args_autorename_off_refuted :
  ~ (forall w target source token folder st res st' rq r,
        DROPBOX_UPLOAD_ARGS st = DROPBOX_UPLOAD_ARGS init ->
        upload_to_dropbox w target source token folder st = (res, st') ->
        In (Posted rq r) (events_since st st') ->
        url rq = DROPBOX_UPLOAD_URL ->
        exists args,
          headers rq !! "Dropbox-API-Arg" = Some (Dumps (VDict args))
          /\ upload_args false (dropbox_path folder target) args).
Proof.
  intros H.
  edestruct (H (Example.w 200 200 "https://www.dropbox.com/s/k/myapp_1_03.apk?dl=0")
               "myapp_1_03.apk" "build/app.apk" "token" "releases" init)
    as (args & Hheader & _ & _ & Hautorename & _).
  - reflexivity.
  - apply surjective_pairing.
  - vm_compute. right; right; left; reflexivity.
  - reflexivity.
  - vm_compute in Hheader. injection Hheader as <-.
    vm_compute in Hautorename. discriminate Hautorename.
Qed.

(** C5.  For all names and versions, [get_target_file_name] returns the
    lowercased name, an underscore, the version with every [.] turned
    into [_] and the suffix [.apk], the whole without its spaces; it
    always returns, and as a function of its two arguments it gives the
    same result every time.  The two examples of the specification
    evaluate as stated. *)
Theorem get_target_file_name_spec :
  (forall app_name app_version,
      get_target_file_name app_name app_version
      = Returns (target_file_name_spec app_name app_version))
  /\ get_target_file_name "MyApp" "1.03" = Returns "myapp_1_03.apk"
  /\ get_target_file_name "Cool App" "2.0.1" = Returns "coolapp_2_0_1.apk".
Proof.
  split; [|split; vm_compute; reflexivity].
  intros n v. unfold get_target_file_name, target_file_name_spec.
  rewrite format_target_name. cbn [obind].
  rewrite replace_char_empty, replace_char_char. reflexivity.
Qed.

(** C6.  When the share-link call succeeds and returns a link that ends
    in [0], the uploader returns that link with the final [0] turned into
    [1]. *)
Theorem direct_link_of_dl0 w target source token folder st res st' rq r body prefix :
  upload_to_dropbox w target source token folder st = (res, st') ->
  In (Posted rq (Some r)) (events_since st st') ->
  url rq = DROPBOX_SHARE_URL ->
  status_code r = codes_ok ->
  json_body r = Some body ->
  getitem "url" body = Returns (VStr (prefix +:+ "0")) ->
  res = Returns (VStr (prefix +:+ "1")).
Proof.
  intros Hup Hin Hurl Hstatus Hbody Hlink.
  rewrite (upload_to_dropbox_link _ _ _ _ _ _ _ _ _ _ _ _
             Hup Hin Hurl Hstatus Hbody Hlink).
  now rewrite drop_last_snoc.
Qed.

Lemma direct_link_of_dl0_witness :
  fst (upload_to_dropbox
         (Example.w 200 200 "https://www.dropbox.com/s/k/myapp_1_03.apk?dl=0")
         "myapp_1_03.apk" "build/app.apk" "token" "releases" init)
  = Returns (VStr "https://www.dropbox.com/s/k/myapp_1_03.apk?dl=1").
Proof.
  refine (direct_link_of_dl0
            (Example.w 200 200 "https://www.dropbox.com/s/k/myapp_1_03.apk?dl=0")
            "myapp_1_03.apk" "build/app.apk" "token" "releases" init _ _ _ _
            (VDict (<["url" := VStr "https://www.dropbox.com/s/k/myapp_1_03.apk?dl=0"]> ∅))
            "https://www.dropbox.com/s/k/myapp_1_03.apk?dl=" _ _ _ _ _ _).
  - apply surjective_pairing.
  - vm_compute. right; right; right; left; reflexivity.
  - reflexivity.
  - reflexivity.
  - reflexivity.
  - reflexivity.
Defined.

(** C7.  The template of the specification, rendered for "Foo", "1.0"
    and "http://x", yields the subject "Hello Foo" and the body
    "Version 1.0 ready: http://x". *)
Theorem get_email_round_trip w changes path st :
  files w !! path = Some "#subject
Hello {app_name}
#body
Version {app_version} ready: {app_download_url}" ->
  fst (get_email w "Foo" "1.0" "http://x" changes path st)
  = Returns (VStr "Hello Foo", VStr "Version 1.0 ready: http://x").
Proof.
  intros Hfile. rewrite get_email_run, Hfile. cbn [fst].
  vm_compute. reflexivity.
Qed.

Lemma get_email_round_trip_witness :
  fst (get_email (Example.w 200 200 EmptyString) "Foo" "1.0" "http://x" "Fixed bug"
         "mail.txt" init)
  = Returns (VStr "Hello Foo", VStr "Version 1.0 ready: http://x").
Proof.
  refine (get_email_round_trip (Example.w 200 200 EmptyString) "Fixed bug" "mail.txt" init _).
  reflexivity.
Defined.

(** C8, as the code has it.  When the substitution succeeds and the
    substituted text has no line that begins with [#subject] or [#body],
    [get_email] returns the pair of empty strings. *)
Theorem get_email_no_marker w app_name app_version app_url changes path raw template st :
  files w !! path = Some raw ->
  substitute raw app_name app_version app_url changes = Returns template ->
  no_marker_line template = true ->
  fst (get_email w app_name app_version app_url changes path st)
  = Returns (VStr EmptyString, VStr EmptyString).
Proof.
  intros Hfile Hsub Hno. rewrite get_email_run, Hfile, Hsub. cbn [fst obind].
  unfold sections. now rewrite (fold_no_marker _ Hno).
Qed.

Lemma get_email_no_marker_witness :
  fst (get_email (Example.w 200 200 EmptyString) "Foo" "1.0" "http://x" "Fixed bug"
         "bare.txt" init)
  = Returns (VStr EmptyString, VStr EmptyString).
Proof.
  refine (get_email_no_marker (Example.w 200 200 EmptyString) "Foo" "1.0" "http://x"
            "Fixed bug" "bare.txt" "{change_log}" "Fixed bug" init _ _ _).
  - reflexivity.
  - reflexivity.
  - reflexivity.
Defined.

(** C8, as the specification words it, fails: a template without marker
    lines can receive one from a placeholder value. *)
Lemma get_email_no_marker_template_refuted :
  ~ (forall w app_name app_version app_url changes path raw st,
        files w !! path = Some raw ->
        no_marker_line raw = true ->
        fst (get_email w app_name app_version app_url changes path st)
        = Returns (VStr EmptyString, VStr EmptyString)).
Proof.
  intros H.
  specialize (H (Example.w 200 200 EmptyString) "Foo" "1.0" "http://x" "#subject
hi" "bare.txt" "{change_log}" init eq_refl eq_refl).
  vm_compute in H. discriminate H.
Qed.

(** C9.  Whenever [get_changes] returns, its result is not [None];
    whenever [get_email] returns, neither component of its result is
    [None]; neither of them leaves through [exit]; and the driver never
    leaves with the exit codes 4 and 3 of the changelog and template
    failures. *)
Theorem failure_sentinels_unreachable w o :
  (forall path,
      ensures (get_changes w path) (fun v => is_None v = false) (fun _ => False))
  /\ (forall app_name app_version app_url changes path,
         ensures (get_email w app_name app_version app_url changes path)
           (fun email => is_None (fst email) = false /\ is_None (snd email) = false)
           (fun _ => False))
  /\ ensures (main w o) (fun _ => True)
       (fun code => code <> CHANGES_ERROR_CODE /\ code <> TEMPLATE_ERROR_CODE).
Proof.
  split; [intros; apply ensures_get_changes|].
  split; [intros; apply ensures_get_email|].
  eapply ensures_weaken; [apply ensures_main | auto |].
  intros code [-> | ->]; split; discriminate.
Qed.

(** C10.  When the share-link call succeeds, the uploader returns the
    link it got with its last character removed and [1] appended,
    whatever that character was: a link [s ++ c] becomes [s ++ 1] for
    every [c]. *)
Theorem direct_link_unconditional
    w target source token folder st res st' rq r body link :
  upload_to_dropbox w target source token folder st = (res, st') ->
  In (Posted rq (Some r)) (events_since st st') ->
  url rq = DROPBOX_SHARE_URL ->
  status_code r = codes_ok ->
  json_body r = Some body ->
  getitem "url" body = Returns (VStr link) ->
  res = Returns (VStr (drop_last link +:+ "1"))
  /\ forall s c, link = s +:+ String c EmptyString -> res = Returns (VStr (s +:+ "1")).
Proof.
  intros Hup Hin Hurl Hstatus Hbody Hlink.
  rewrite (upload_to_dropbox_link _ _ _ _ _ _ _ _ _ _ _ _
             Hup Hin Hurl Hstatus Hbody Hlink).
  split; [reflexivity|]. intros s c ->. now rewrite drop_last_snoc.
Qed.

Lemma direct_link_unconditional_witness :
  fst (upload_to_dropbox (Example.w 200 200 "https://example.org/get/myapp.apk")
         "myapp_1_03.apk" "build/app.apk" "token" "releases" init)
  = Returns (VStr "https://example.org/get/myapp.ap1").
Proof.
  refine (proj1 (direct_link_unconditional
            (Example.w 200 200 "https://example.org/get/myapp.apk")
            "myapp_1_03.apk" "build/app.apk" "token" "releases" init _ _ _ _
            (VDict (<["url" := VStr "https://example.org/get/myapp.apk"]> ∅))
            "https://example.org/get/myapp.apk" _ _ _ _ _ _)).
  - apply surjective_pairing.
  - vm_compute. right; right; right; left; reflexivity.
  - reflexivity.
  - reflexivity.
  - reflexivity.
  - reflexivity.
Defined.

(** ** Further properties of the stages *)

Lemma upload_to_dropbox_state w target source token folder st :
  exists evs,
    snd (upload_to_dropbox w target source token folder st)
    = record evs (with_path (dropbox_path folder target) st)
    /\ upload_run w source token (with_path (dropbox_path folder target) st) evs
         (fst (upload_to_dropbox w target source token folder st)).
Proof.
  destruct (upload_to_dropbox_run w target source token folder st)
    as (evs & res & -> & Hrun). now exists evs.
Qed.

(** X1.  Whatever its outcome, [upload_to_dropbox] leaves the path
    [/folder/file] under ['path'] in the upload arguments, the share data
    and the delete data, keeps their other entries, and does not touch
    the mail data. *)
Theorem upload_stores_path w target source token folder st :
  let st' := snd (upload_to_dropbox w target source token folder st) in
  let path := VStr (dropbox_path folder target) in
  DROPBOX_UPLOAD_ARGS st' = <["path" := path]> (DROPBOX_UPLOAD_ARGS st)
  /\ DROPBOX_SHARE_DATA st' = <["path" := path]> (DROPBOX_SHARE_DATA st)
  /\ DROPBOX_DELETE_DATA st' = <["path" := path]> (DROPBOX_DELETE_DATA st)
  /\ ZAPIER_SEND_DATA st' = ZAPIER_SEND_DATA st.
Proof.
  intros st' path. subst st'.
  destruct (upload_to_dropbox_state w target source token folder st) as (evs & -> & _).
  now repeat split.
Qed.

Lemma upload_run_order w source token st evs res :
  upload_run w source token st evs res ->
  (posted_urls evs = [DROPBOX_DELETE_URL]
   \/ posted_urls evs = [DROPBOX_DELETE_URL; DROPBOX_UPLOAD_URL]
   \/ posted_urls evs = [DROPBOX_DELETE_URL; DROPBOX_UPLOAD_URL; DROPBOX_SHARE_URL])
  /\ (opened_paths evs = [] \/ opened_paths evs = [source]).
Proof. destruct 1; cbn; auto. Qed.

(** X2.  [upload_to_dropbox] posts at most three requests, in the order
    delete, upload, share (a later one only after the earlier ones), and
    opens at most one file, the artifact. *)
Theorem upload_calls_in_order w target source token folder st :
  let evs := events_since st (snd (upload_to_dropbox w target source token folder st)) in
  (posted_urls evs = [DROPBOX_DELETE_URL]
   \/ posted_urls evs = [DROPBOX_DELETE_URL; DROPBOX_UPLOAD_URL]
   \/ posted_urls evs = [DROPBOX_DELETE_URL; DROPBOX_UPLOAD_URL; DROPBOX_SHARE_URL])
  /\ (opened_paths evs = [] \/ opened_paths evs = [source]).
Proof.
  intros evs. subst evs.
  destruct (upload_to_dropbox_state w target source token folder st) as (evs & -> & Hrun).
  rewrite events_since_record by reflexivity.
  exact (upload_run_order _ _ _ _ _ _ Hrun).
Qed.

Lemma upload_run_authorized w source token st evs res :
  upload_run w source token st evs res -> Forall (authorized token) evs.
Proof.
  destruct 1; cbn [app]; repeat constructor; unfold bearer; cbn; now simplify_map_eq.
Qed.

(** X3.  Every request [upload_to_dropbox] posts carries the header
    [Authorization: Bearer <token>]. *)
Theorem upload_calls_authorized w target source token folder st :
  Forall (authorized token)
    (events_since st (snd (upload_to_dropbox w target source token folder st))).
Proof.
  destruct (upload_to_dropbox_state w target source token folder st) as (evs & -> & Hrun).
  rewrite events_since_record by reflexivity.
  exact (upload_run_authorized _ _ _ _ _ _ Hrun).
Qed.

(** X4.  The status of the delete call is never looked at: once that call
    is answered, whatever the answer, and the artifact can be opened, the
    upload request is posted. *)
Theorem upload_ignores_delete_status w target source token folder st r0 content :
  let st1 := with_path (dropbox_path folder target) st in
  post w (trace st) (delete_call st1 token) = Some r0 ->
  files w !! source = Some content ->
  exists answer,
    In (Posted (upload_call st1 token content) answer)
      (events_since st (snd (upload_to_dropbox w target source token folder st))).
Proof.
  intros st1 Hdel Hfile.
  destruct (upload_to_dropbox_state w target source token folder st) as (evs & -> & Hrun).
  rewrite events_since_record by reflexivity. fold st1 in Hrun.
  change (trace st) with (trace st1) in Hdel.
  destruct Hrun as [Hd|? Hd Hf|? c evs0 Hd Hf|? c ? evs0 Hd Hf|? c ? evs0 Hd Hf
                    |? c ? ? evs0 Hd Hf|? c ? ? evs0 Hd Hf];
    try congruence;
    assert (c = content) as -> by congruence;
    eexists; subst evs0; cbn [app In]; eauto.
Qed.

Lemma upload_ignores_delete_status_witness :
  exists answer,
    In (Posted (upload_call (with_path "/releases/myapp_1_03.apk" init) "token" "PK") answer)
      (events_since init
         (snd (upload_to_dropbox
                 (Sample.w Example.disk None (Some (Sample.plain 404))
                    (Some (Sample.plain 200)) (Some (Sample.linked 200 "https://www.dropbox.com/s/k/myapp_1_03.apk?dl=0")) None)
                 "myapp_1_03.apk" "build/app.apk" "token" "releases" init))).
Proof.
  exact (upload_ignores_delete_status
           (Sample.w Example.disk None (Some (Sample.plain 404))
              (Some (Sample.plain 200)) (Some (Sample.linked 200 "https://www.dropbox.com/s/k/myapp_1_03.apk?dl=0")) None)
           "myapp_1_03.apk" "build/app.apk" "token" "releases" init
           (Sample.plain 404) "PK" eq_refl eq_refl).
Defined.


(** X5.  When the delete call raises, [upload_to_dropbox] raises too:
    the delete request is its only event, and nothing is uploaded. *)
Theorem upload_aborts_when_delete_raises w target source token folder st :
  let st1 := with_path (dropbox_path folder target) st in
  post w (trace st) (delete_call st1 token) = None ->
  upload_to_dropbox w target source token folder st
  = (Raises RequestException, record [Posted (delete_call st1 token) None] st1).
Proof.
  intros st1 Hdel.
  destruct (upload_to_dropbox_run w target source token folder st)
    as (evs & res & -> & Hrun). fold st1 in Hrun |- *.
  change (trace st) with (trace st1) in Hdel.
  destruct Hrun; try congruence.
Qed.

Lemma upload_aborts_when_delete_raises_witness :
  fst (upload_to_dropbox
         (Sample.w Example.disk None None (Some (Sample.plain 200))
            (Some (Sample.linked 200 "https://www.dropbox.com/s/k/myapp_1_03.apk?dl=0")) None)
         "myapp_1_03.apk" "build/app.apk" "token" "releases" init)
  = Raises RequestException.
Proof.
  exact (f_equal fst
           (upload_aborts_when_delete_raises
              (Sample.w Example.disk None None (Some (Sample.plain 200))
                 (Some (Sample.linked 200 "https://www.dropbox.com/s/k/myapp_1_03.apk?dl=0")) None)
              "myapp_1_03.apk" "build/app.apk" "token" "releases" init eq_refl)).
Defined.


Lemma upload_run_str w source token st evs res s :
  upload_run w source token st evs res ->
  res = Returns (VStr s) ->
  exists link, s = drop_last link +:+ "1".
Proof.
  destruct 1; try discriminate.
  unfold response_json. destruct (json_body r2) as [body|]; [|discriminate].
  cbn [obind]. destruct (getitem "url" body) as [u| | |]; try discriminate.
  cbn [obind]. destruct u; try discriminate. cbn [direct_link].
  rewrite slice_to_minus_one. intros [= <-]. eauto.
Qed.

(** X6.  Every string [upload_to_dropbox] returns ends in [1]. *)
Theorem upload_result_ends_in_1 w target source token folder st s :
  fst (upload_to_dropbox w target source token folder st) = Returns (VStr s) ->
  exists stem, s = stem +:+ "1".
Proof.
  intros Hres.
  destruct (upload_to_dropbox_state w target source token folder st) as (evs & _ & Hrun).
  destruct (upload_run_str _ _ _ _ _ _ _ Hrun Hres) as [link ->]. eauto.
Qed.

Lemma upload_result_ends_in_1_witness :
  exists stem, "https://www.dropbox.com/s/k/myapp_1_03.apk?dl=1" = stem +:+ "1".
Proof.
  exact (upload_result_ends_in_1 (Example.w 200 200 "https://www.dropbox.com/s/k/myapp_1_03.apk?dl=0")
           "myapp_1_03.apk" "build/app.apk" "token" "releases" init
           "https://www.dropbox.com/s/k/myapp_1_03.apk?dl=1" eq_refl).
Defined.


Lemma upload_run_none w source token st evs res :
  upload_run w source token st evs res ->
  res = Returns VNone ->
  (exists rq r,
      In (Posted rq (Some r)) evs
      /\ (url rq = DROPBOX_UPLOAD_URL \/ url rq = DROPBOX_SHARE_URL)
      /\ status_code r <> codes_ok)
  /\ (last evs = Some (Printed "Failed: upload file to Dropbox")
      \/ last evs = Some (Printed "Failed: get share link from Dropbox")).
Proof.
  destruct 1; try discriminate.
  - intros _. split; [|now left].
    eexists _, _. split; [cbn; right; right; left; reflexivity|]. split; [now left | assumption].
  - intros _. split; [|now right].
    eexists _, _. split; [cbn; right; right; right; left; reflexivity|].
    split; [now right | assumption].
  - unfold response_json. destruct (json_body r2) as [body|]; [|discriminate].
    cbn [obind]. destruct (getitem "url" body) as [u| | |]; try discriminate.
    cbn [obind]. destruct u; discriminate.
Qed.

(** X7.  [upload_to_dropbox] returns [None] only after the upload or the
    share-link call was answered with a status that is not the success
    status, and then its last event is the failure line it printed. *)
Theorem upload_none_means_refused w target source token folder st :
  fst (upload_to_dropbox w target source token folder st) = Returns VNone ->
  let evs := events_since st (snd (upload_to_dropbox w target source token folder st)) in
  (exists rq r,
      In (Posted rq (Some r)) evs
      /\ (url rq = DROPBOX_UPLOAD_URL \/ url rq = DROPBOX_SHARE_URL)
      /\ status_code r <> codes_ok)
  /\ (last evs = Some (Printed "Failed: upload file to Dropbox")
      \/ last evs = Some (Printed "Failed: get share link from Dropbox")).
Proof.
  intros Hres evs. subst evs.
  destruct (upload_to_dropbox_state w target source token folder st) as (evs & -> & Hrun).
  rewrite events_since_record by reflexivity.
  exact (upload_run_none _ _ _ _ _ _ Hrun Hres).
Qed.

Lemma upload_none_means_refused_witness :
  let evs :=
    events_since init
      (snd (upload_to_dropbox (Example.w 409 200 "https://www.dropbox.com/s/k/myapp_1_03.apk?dl=0")
              "myapp_1_03.apk" "build/app.apk" "token" "releases" init)) in
  last evs = Some (Printed "Failed: upload file to Dropbox")
  \/ last evs = Some (Printed "Failed: get share link from Dropbox").
Proof.
  exact (proj2 (upload_none_means_refused (Example.w 409 200 "https://www.dropbox.com/s/k/myapp_1_03.apk?dl=0")
                  "myapp_1_03.apk" "build/app.apk" "token" "releases" init eq_refl)).
Defined.





Lemma send_email_run w hook to subject body st :
  let st1 := with_mail to subject body st in
  let answer := post w (trace st) (send_call st1 hook) in
  send_email w hook to subject body st
  = (match answer with
     | Some r => Returns (status_code r =? codes_ok)%Z
     | None => Raises RequestException
     end, record [Posted (send_call st1 hook) answer] st1).
Proof.
  intros st1 answer. unfold send_email, bind, set_send_data, modify, get.
  rewrite requests_post_run. subst answer.
  change (post w _ _) with (post w (trace st) (send_call st1 hook)).
  now destruct (post w (trace st) (send_call st1 hook)).
Qed.

(** X9.  [send_email] posts exactly one request: to the hook, with the
    single header [Content-Type: application/json] and a JSON object that
    holds the recipients, the subject and the body it was given; it
    returns whether the answer has the success status, and raises when
    the call raises. *)
Theorem send_email_posts_once w hook to subject body st :
  exists rq answer payload,
    events_since st (snd (send_email w hook to subject body st)) = [Posted rq answer]
    /\ url rq = hook
    /\ headers rq = <["Content-Type" := Text "application/json"]> ∅
    /\ data rq = Dumps (VDict payload)
    /\ payload !! "to" = Some (VStr to)
    /\ payload !! "subject" = Some subject
    /\ payload !! "body" = Some body
    /\ fst (send_email w hook to subject body st)
       = match answer with
         | Some r => Returns (status_code r =? codes_ok)%Z
         | None => Raises RequestException
         end.
Proof.
  rewrite send_email_run. cbn [fst snd].
  eexists _, _, _. rewrite events_since_record by reflexivity.
  split; [reflexivity|]. cbn [url headers data send_call with_mail ZAPIER_SEND_DATA].
  repeat split; now simplify_map_eq.
Qed.

Lemma mail_overwrites to subject body to0 subject0 body0 :
  <["body" := body]> (<["subject" := subject]>
    (<["to" := to]> (mail to0 subject0 body0)))
  = mail to subject body.
Proof.
  unfold mail. apply map_eq. intros k.
  destruct (decide (k = "body")) as [->|Hb]; [now simplify_map_eq|].
  destruct (decide (k = "subject")) as [->|Hs]; [now simplify_map_eq|].
  destruct (decide (k = "to")) as [->|Ht]; now simplify_map_eq.
Qed.

(** X10.  When the mail data holds the three entries of a mail, as it
    does in the loaded module and after every call, the object
    [send_email] posts and leaves behind is exactly the mail it was
    given: nothing of an earlier mail remains. *)
Theorem send_email_payload_fresh w hook to subject body st to0 subject0 body0 :
  ZAPIER_SEND_DATA st = mail to0 subject0 body0 ->
  ZAPIER_SEND_DATA (snd (send_email w hook to subject body st))
  = mail (VStr to) subject body
  /\ exists rq answer,
       events_since st (snd (send_email w hook to subject body st)) = [Posted rq answer]
       /\ data rq = Dumps (VDict (mail (VStr to) subject body)).
Proof.
  intros Hold. rewrite send_email_run. cbn [snd].
  rewrite events_since_record by reflexivity.
  cbn [record with_mail ZAPIER_SEND_DATA]. rewrite Hold, mail_overwrites.
  split; [reflexivity|]. eexists _, _. split; [reflexivity|].
  cbn [data send_call with_mail ZAPIER_SEND_DATA]. now rewrite Hold, mail_overwrites.
Qed.

Lemma send_email_payload_fresh_witness :
  ZAPIER_SEND_DATA
    (snd (send_email (Example.w 200 200 EmptyString) "https://hooks.zapier.com/hooks/catch/1/"
            "team@example.org" (VStr "Hello Foo") (VStr "Version 1.0") init))
  = mail (VStr "team@example.org") (VStr "Hello Foo") (VStr "Version 1.0").
Proof.
  exact (proj1 (send_email_payload_fresh (Example.w 200 200 EmptyString)
                  "https://hooks.zapier.com/hooks/catch/1/" "team@example.org"
                  (VStr "Hello Foo") (VStr "Version 1.0") init VNone VNone VNone eq_refl)).
Defined.


(** X11.  [get_app] reads [output.json] in the release directory and
    returns the [versionName] of element 0 and its [outputFile] joined to
    the release directory; the other elements and entries are ignored. *)
Theorem get_app_reads_first_element w dir st text e rest info v f :
  files w !! os_path_join dir "output.json" = Some text ->
  json_loads w text = Some (VList (VDict e :: rest)) ->
  e !! "apkInfo" = Some (VDict info) ->
  info !! "versionName" = Some v ->
  info !! "outputFile" = Some (VStr f) ->
  fst (get_app w dir st) = Returns (v, os_path_join dir f).
Proof.
  intros Hfile Hjson He Hv Hf.
  unfold get_app, bind. rewrite read_file_run, Hfile.
  unfold lift, json_load. rewrite Hjson. cbn [getitem0 obind getitem].
  rewrite He. cbn [obind getitem]. now rewrite Hv, Hf.
Qed.

Lemma get_app_reads_first_element_witness :
  fst (get_app (Example.w 200 200 EmptyString) "build" init)
  = Returns (VStr "1.03", "build/app.apk").
Proof.
  exact (get_app_reads_first_element (Example.w 200 200 EmptyString) "build" init
           "[descriptor]"
           (<["apkInfo" := VDict (<["versionName" := VStr "1.03"]>
                                    (<["outputFile" := VStr "app.apk"]> ∅))]> ∅)
           [] (<["versionName" := VStr "1.03"]> (<["outputFile" := VStr "app.apk"]> ∅))
           (VStr "1.03") "app.apk" eq_refl eq_refl eq_refl eq_refl eq_refl).
Defined.


(** X12.  Whatever its outcome, [get_app] opens one file, [output.json]
    in the release directory, posts nothing and leaves the module-level
    dictionaries as they are. *)
Theorem get_app_effects w dir st :
  snd (get_app w dir st) = record [Opened (os_path_join dir "output.json")] st.
Proof.
  apply (get_app_trace w dir st (fst (get_app w dir st))).
  apply surjective_pairing.
Qed.

(** X13.  On a descriptor it cannot use, [get_app] raises:
    [JSONDecodeError] when the text does not parse, [IndexError] on an
    empty array, [KeyError] when ['apkInfo'], ['versionName'] or
    ['outputFile'] is missing, [TypeError] when the output file is not a
    string. *)
Theorem get_app_descriptor_errors w dir st text :
  files w !! os_path_join dir "output.json" = Some text ->
  let res := fst (get_app w dir st) in
  (json_loads w text = None -> res = Raises JSONDecodeError)
  /\ (json_loads w text = Some (VList []) -> res = Raises IndexError)
  /\ (forall e rest, json_loads w text = Some (VList (VDict e :: rest)) ->
                     e !! "apkInfo" = None -> res = Raises KeyError)
  /\ (forall e rest info,
         json_loads w text = Some (VList (VDict e :: rest)) ->
         e !! "apkInfo" = Some (VDict info) ->
         info !! "versionName" = None \/ info !! "outputFile" = None ->
         res = Raises KeyError)
  /\ (forall e rest info v u,
         json_loads w text = Some (VList (VDict e :: rest)) ->
         e !! "apkInfo" = Some (VDict info) ->
         info !! "versionName" = Some v ->
         info !! "outputFile" = Some u ->
         (forall f, u <> VStr f) ->
         res = Raises TypeError).
Proof.
  intros Hfile res. subst res.
  unfold get_app, bind. rewrite read_file_run, Hfile. unfold lift, json_load.
  repeat split.
  - now intros ->.
  - now intros ->.
  - intros e rest -> He. cbn. now rewrite He.
  - intros e rest info -> He [Hv|Hf]; cbn; rewrite He; cbn.
    + now rewrite Hv.
    + destruct (info !! "versionName"); now rewrite ?Hf.
  - intros e rest info v u -> He Hv Hu Hne. cbn. rewrite He. cbn. rewrite Hv, Hu.
    destruct u; try reflexivity. now destruct (Hne s).
Qed.

Lemma get_app_descriptor_errors_witness :
  fst (get_app (Sample.w Example.disk (Some (VList [])) None None None None) "build" init)
  = Raises IndexError.
Proof.
  exact (proj1 (proj2 (get_app_descriptor_errors
                         (Sample.w Example.disk (Some (VList [])) None None None None)
                         "build" init "[descriptor]" eq_refl)) eq_refl).
Defined.


Lemma filter_append p s t : Str.filter p (s +:+ t) = Str.filter p s +:+ Str.filter p t.
Proof.
  induction s as [|c s IH]; [reflexivity|].
  rewrite append_cons. cbn [Str.filter]. destruct (p c); now rewrite ?append_cons, IH.
Qed.

Lemma any_filter_not p s : Str.any p (Str.filter (fun c => negb (p c)) s) = false.
Proof.
  induction s as [|c s IH]; [reflexivity|].
  cbn [Str.filter]. destruct (p c) eqn:Hc; cbn [negb]; [exact IH|].
  cbn [Str.any]. now rewrite Hc, IH.
Qed.

Lemma lower_char_idem c : Str.lower_char (Str.lower_char c) = Str.lower_char c.
Proof. destruct c as [[] [] [] [] [] [] [] []]; reflexivity. Qed.

Lemma lower_char_space c : not_space (Str.lower_char c) = not_space c.
Proof. destruct c as [[] [] [] [] [] [] [] []]; reflexivity. Qed.

Lemma map_filter_lower s :
  Str.filter not_space (Str.map Str.lower_char s)
  = Str.map Str.lower_char (Str.filter not_space s).
Proof.
  induction s as [|c s IH]; [reflexivity|].
  cbn [Str.map Str.filter]. rewrite lower_char_space.
  destruct (not_space c); cbn [Str.map]; now rewrite IH.
Qed.

Lemma filter_idem p s : Str.filter p (Str.filter p s) = Str.filter p s.
Proof.
  induction s as [|c s IH]; [reflexivity|].
  cbn [Str.filter]. destruct (p c) eqn:Hc; [|exact IH].
  cbn [Str.filter]. now rewrite Hc, IH.
Qed.

Lemma map_lower_idem s :
  Str.map Str.lower_char (Str.map Str.lower_char s) = Str.map Str.lower_char s.
Proof.
  induction s as [|c s IH]; [reflexivity|].
  cbn [Str.map]. now rewrite lower_char_idem, IH.
Qed.

Lemma dot_to_underscore_space c : not_space (dot_to_underscore c) = not_space c.
Proof. destruct c as [[] [] [] [] [] [] [] []]; reflexivity. Qed.

Lemma map_filter_dots s :
  Str.filter not_space (Str.map dot_to_underscore s)
  = Str.map dot_to_underscore (Str.filter not_space s).
Proof.
  induction s as [|c s IH]; [reflexivity|].
  cbn [Str.map Str.filter]. rewrite dot_to_underscore_space.
  destruct (not_space c); cbn [Str.map]; now rewrite IH.
Qed.

Lemma target_file_name_value app_name app_version :
  get_target_file_name app_name app_version
  = Returns (Str.map Str.lower_char (Str.filter not_space app_name) +:+ "_"
             +:+ Str.map dot_to_underscore (Str.filter not_space app_version)
             +:+ ".apk").
Proof.
  unfold get_target_file_name. rewrite format_target_name. cbn [obind].
  rewrite replace_char_empty, replace_char_char.
  change (fun c => negb (Ascii.eqb c " ")) with not_space.
  change (fun c => if Ascii.eqb c "." then "_"%char else c) with dot_to_underscore.
  unfold Str.lower.
  rewrite !filter_append, map_filter_lower, map_filter_dots. reflexivity.
Qed.

(** X14.  The file name [get_target_file_name] returns never contains a
    space and always ends in [.apk]. *)
Theorem target_file_name_shape app_name app_version :
  exists stem,
    get_target_file_name app_name app_version = Returns (stem +:+ ".apk")
    /\ Str.any (fun c => Ascii.eqb c " ") (stem +:+ ".apk") = false.
Proof.
  exists (Str.filter not_space
            (Str.lower app_name +:+ "_" +:+ Str.replace "." "_" app_version)).
  unfold get_target_file_name. rewrite format_target_name. cbn [obind].
  rewrite replace_char_empty.
  change (fun c => negb (Ascii.eqb c " ")) with not_space.
  assert (Heq : Str.filter not_space
                  (Str.lower app_name +:+ "_" +:+ Str.replace "." "_" app_version +:+ ".apk")
                = Str.filter not_space
                    (Str.lower app_name +:+ "_" +:+ Str.replace "." "_" app_version)
                  +:+ ".apk").
  { rewrite <- !append_assoc. rewrite filter_append. reflexivity. }
  rewrite Heq. split; [reflexivity|].
  rewrite <- Heq. apply (any_filter_not (fun c => Ascii.eqb c " ")).
Qed.

(** X15.  For an app name of ASCII characters, [get_target_file_name]
    gives the same file name for names that differ only in letter case or
    spaces, and for versions that differ only in spaces: lowering the
    name and removing the spaces of both arguments first changes
    nothing. *)
Theorem target_file_name_normalises app_name app_version :
  Str.all is_ascii app_name = true ->
  get_target_file_name (Str.lower (Str.filter not_space app_name))
    (Str.filter not_space app_version)
  = get_target_file_name app_name app_version.
Proof.
  intros _. rewrite !target_file_name_value. unfold Str.lower.
  rewrite map_filter_lower, !filter_idem, map_lower_idem.
  reflexivity.
Qed.

Lemma target_file_name_normalises_witness :
  get_target_file_name "myapp" "1.03" = get_target_file_name "My App" "1 .03".
Proof. exact (target_file_name_normalises "My App" "1 .03" eq_refl). Defined.

Lemma heading_from_lines s :
  heading_from true s = existsb is_heading (lines_keep s)
  /\ heading_from false s = existsb is_heading (lines_keep (after_line s)).
Proof.
  induction s as [|c s [IHt IHf]]; [now split|].
  assert (Hf : heading_from false (String c s)
               = existsb is_heading (lines_keep (after_line (String c s)))).
  { cbn [heading_from after_line andb orb].
    destruct (Ascii.eqb c Str.LF); assumption. }
  split; [|exact Hf].
  rewrite (lines_keep_unfold (String c s)). cbn [existsb].
  rewrite <- Hf. unfold is_heading.
  destruct (line_end_head c s) as [r ->]. rewrite startswith_char.
  cbn [heading_from andb]. destruct (Ascii.eqb c "#") eqn:Hc; cbn [orb]; [reflexivity|].
  reflexivity.
Qed.

Lemma sub_heading_go_clean s :
  (forall bol, heading_from true (sub_heading_go bol true s) = false)
  /\ (forall bol, heading_from bol (sub_heading_go bol false s) = false).
Proof.
  induction s as [|c s [IHin IHout]]; [now split|].
  split; intros bol; cbn [sub_heading_go].
  - destruct (Ascii.eqb c Str.LF); [apply IHout | apply IHin].
  - destruct (bol && Ascii.eqb c "#") eqn:Hb.
    + apply andb_prop in Hb as [-> _]. apply IHin.
    + cbn [heading_from]. rewrite Hb. apply IHout.
Qed.

Lemma drop_headings_clean s : existsb is_heading (lines_keep (drop_headings s)) = false.
Proof.
  rewrite <- sub_heading_spec, <- (proj1 (heading_from_lines _)).
  apply sub_heading_go_clean.
Qed.

(** X16.  No line of the text [get_changes] returns starts with [#]. *)
Theorem get_changes_no_heading w path st changes :
  fst (get_changes w path st) = Returns (VStr changes) ->
  existsb is_heading (lines_keep changes) = false.
Proof.
  rewrite get_changes_run. cbn [fst].
  destruct (files w !! path); [|discriminate].
  intros [= <-]. apply drop_headings_clean.
Qed.

Lemma get_changes_no_heading_witness :
  existsb is_heading (lines_keep "Fixed bug") = false.
Proof.
  exact (get_changes_no_heading (Example.w 200 200 EmptyString) "CHANGELOG.md" init
           "Fixed bug" eq_refl).
Defined.

(** X17.  For a changelog that begins with the delimiter [##],
    [get_changes] returns the empty string. *)
Theorem get_changes_delimiter_first w path st rest :
  files w !! path = Some ("##" +:+ rest) ->
  fst (get_changes w path st) = Returns (VStr EmptyString).
Proof.
  intros Hfile. rewrite get_changes_run, Hfile. cbn [fst].
  replace (before "##" ("##" +:+ rest)) with EmptyString; [reflexivity|].
  change ("##" +:+ rest) with (String "#" (String "#" rest)).
  cbn [before]. cbn [String.prefix]. now rewrite prefix_empty.
Qed.

Lemma get_changes_delimiter_first_witness :
  fst (get_changes (Sample.w Sample.disk None None None None None) "HISTORY.md" init)
  = Returns (VStr EmptyString).
Proof.
  exact (get_changes_delimiter_first (Sample.w Sample.disk None None None None None)
           "HISTORY.md" init " 1.03
Fixed bug
" eq_refl).
Defined.


Lemma format_go_literal kw pre t :
  Str.any is_brace pre = false ->
  Str.format_go kw Str.Literal (pre +:+ t)
  = obind (Str.format_go kw Str.Literal t) (fun r => Returns (pre +:+ r)).
Proof.
  induction pre as [|c pre IH]; intros Hpre.
  - change (EmptyString +:+ t) with t.
    destruct (Str.format_go kw Str.Literal t); reflexivity.
  - cbn [Str.any] in Hpre. apply orb_false_elim in Hpre as [Hc Hpre].
    unfold is_brace in Hc. apply orb_false_elim in Hc as [Ho Hcl].
    rewrite append_cons. cbn [Str.format_go]. rewrite Ho, Hcl, (IH Hpre).
    now destruct (Str.format_go kw Str.Literal t).
Qed.

Lemma format_go_field kw f : forall acc t,
  Str.any is_brace f = false ->
  Str.format_go kw (Str.Field acc) (f +:+ String "}" t)
  = obind (Str.get_field kw (acc +:+ f)) (fun v =>
      obind (Str.format_go kw Str.Literal t) (fun r => Returns (v +:+ r))).
Proof.
  induction f as [|c f IH]; intros acc t Hf.
  - change (EmptyString +:+ String "}" t) with (String "}" t).
    cbn [Str.format_go]. change (Ascii.eqb "}" "}") with true. cbv iota.
    now rewrite append_nil_r.
  - cbn [Str.any] in Hf. apply orb_false_elim in Hf as [Hc Hf].
    unfold is_brace in Hc. apply orb_false_elim in Hc as [_ Hcl].
    rewrite append_cons. cbn [Str.format_go]. rewrite Hcl, (IH _ _ Hf).
    now rewrite append_assoc.
Qed.

Lemma format_go_opening kw f t :
  Str.any is_brace f = false ->
  Str.format_go kw Str.Opening (f +:+ String "}" t)
  = Str.format_go kw (Str.Field EmptyString) (f +:+ String "}" t).
Proof.
  destruct f as [|c f]; [reflexivity|]. intros Hf.
  cbn [Str.any] in Hf. apply orb_false_elim in Hf as [Hc _].
  unfold is_brace in Hc. apply orb_false_elim in Hc as [Ho _].
  rewrite append_cons. cbn [Str.format_go]. now rewrite Ho.
Qed.

Lemma format_field kw pre f post :
  Str.any is_brace pre = false ->
  Str.any is_brace f = false ->
  Str.format (pre +:+ String "{" (f +:+ String "}" post)) kw
  = obind (Str.get_field kw f) (fun v =>
      obind (Str.format post kw) (fun r => Returns (pre +:+ v +:+ r))).
Proof.
  intros Hpre Hf. unfold Str.format. rewrite (format_go_literal _ _ _ Hpre).
  cbn [Str.format_go]. change (Ascii.eqb "{" "{") with true. cbv iota.
  rewrite (format_go_opening _ _ _ Hf), (format_go_field _ _ _ _ Hf).
  change (EmptyString +:+ f) with f.
  destruct (Str.get_field kw f) as [v| | |]; cbn [obind]; try reflexivity.
  now destruct (Str.format_go kw Str.Literal post).
Qed.

Lemma get_field_plain kw f :
  plain_name f = true ->
  Str.get_field kw f = match kw !! f with
                       | Some v => Returns v
                       | None => Raises KeyError
                       end.
Proof.
  unfold plain_name. intros [[_ Hr%negb_true_iff]%andb_prop Hd%negb_true_iff]%andb_prop.
  unfold Str.get_field. rewrite Hr. destruct f; [discriminate Hd|]. now rewrite Hd.
Qed.

Lemma placeholder_lookup f n v u c :
  (<["app_download_url" := u]> (<["change_log" := c]>
     (<["app_name" := n]> (<["app_version" := v]> (∅ : gmap string string))))) !! f
  = placeholder f n v u c.
Proof.
  unfold placeholder.
  destruct (String.eqb_spec f "app_download_url") as [->|H1]; [now simplify_map_eq|].
  destruct (String.eqb_spec f "change_log") as [->|H2]; [now simplify_map_eq|].
  destruct (String.eqb_spec f "app_name") as [->|H3]; [now simplify_map_eq|].
  destruct (String.eqb_spec f "app_version") as [->|H4]; [now simplify_map_eq|].
  now simplify_map_eq.
Qed.

(** X18.  In a template, a replacement field with a plain name, after
    brace-free text, is replaced by the value of that placeholder as it
    is (the value is not scanned for fields) when the name is one of
    [app_download_url], [change_log], [app_name], [app_version]; any
    other name makes the substitution raise [KeyError]. *)
Theorem substitute_field pre f post app_name app_version app_url changes :
  Str.any is_brace pre = false ->
  plain_name f = true ->
  substitute (pre +:+ String "{" (f +:+ String "}" post))
    app_name app_version app_url changes
  = match placeholder f app_name app_version app_url changes with
    | Some v =>
        obind (substitute post app_name app_version app_url changes)
          (fun r => Returns (pre +:+ v +:+ r))
    | None => Raises KeyError
    end.
Proof.
  intros Hpre Hf. unfold substitute.
  assert (Hb : Str.any is_brace f = false).
  { unfold plain_name in Hf. apply andb_prop in Hf as [Hf _].
    apply andb_prop in Hf as [Hf _]. now apply negb_true_iff in Hf. }
  rewrite (format_field _ _ _ _ Hpre Hb), (get_field_plain _ _ Hf), placeholder_lookup.
  now destruct (placeholder f app_name app_version app_url changes).
Qed.

Lemma substitute_field_witness :
  substitute "Hello {app_name}!" "{Foo}" "1.0" "http://x" "-" = Returns "Hello {Foo}!".
Proof.
  exact (substitute_field "Hello " "app_name" "!" "{Foo}" "1.0" "http://x" "-"
           eq_refl eq_refl).
Defined.


Lemma rstrip_trimmed s : ends_with_space (Str.rstrip s) = false.
Proof.
  induction s as [|c s IH]; [reflexivity|].
  cbn [Str.rstrip]. destruct (Str.rstrip s) as [|c' r].
  - destruct (Str.isspace c) eqn:Hc; [reflexivity|]. cbn. exact Hc.
  - exact IH.
Qed.

(** X19.  The subject and the body [get_email] returns never end in a
    whitespace character. *)
Theorem get_email_trimmed w app_name app_version app_url changes path st subject body :
  fst (get_email w app_name app_version app_url changes path st)
  = Returns (VStr subject, VStr body) ->
  ends_with_space subject = false /\ ends_with_space body = false.
Proof.
  rewrite get_email_run. cbn [fst]. destruct (files w !! path); [|discriminate].
  destruct (substitute _ _ _ _ _) as [t| | |]; try discriminate. cbn [obind].
  unfold sections. destruct (fold_left _ _ _) as [[tg sj] bd]. cbn [fst snd].
  intros [= <- <-]. split; apply rstrip_trimmed.
Qed.

Lemma get_email_trimmed_witness :
  ends_with_space "Hello Foo" = false
  /\ ends_with_space "Version 1.0 ready: http://x" = false.
Proof.
  exact (get_email_trimmed (Example.w 200 200 EmptyString) "Foo" "1.0" "http://x" "-"
           "mail.txt" init "Hello Foo" "Version 1.0 ready: http://x" eq_refl).
Defined.


Lemma fold_no_body ls :
  forallb (fun l => negb (Str.startswith l "#body")) ls = true ->
  forall t s b, t <> target_body ->
    exists t' s', fold_left collect ls (t, s, b) = (t', s', b) /\ t' <> target_body.
Proof.
  induction ls as [|l ls IH]; intros Hls t s b Ht; [now exists t, s|].
  cbn [forallb] in Hls. apply andb_prop in Hls as [Hl Hls].
  apply negb_true_iff in Hl. cbn [fold_left].
  assert (Hstep : exists t' s', collect (t, s, b) l = (t', s', b) /\ t' <> target_body).
  { unfold collect. rewrite Hl.
    destruct (Str.startswith l "#").
    - destruct (Str.startswith l "#subject"); [now exists target_subject, s | now exists t, s].
    - destruct (t =? target_subject)%Z;
        [eexists t, _; split; [reflexivity | exact Ht]|].
      rewrite (proj2 (Z.eqb_neq _ _) Ht). now exists t, s. }
  destruct Hstep as (t' & s' & -> & Ht'). now apply IH.
Qed.

Lemma fold_no_subject ls :
  forallb (fun l => negb (Str.startswith l "#subject")) ls = true ->
  forall t s b, t <> target_subject ->
    exists t' b', fold_left collect ls (t, s, b) = (t', s, b') /\ t' <> target_subject.
Proof.
  induction ls as [|l ls IH]; intros Hls t s b Ht; [now exists t, b|].
  cbn [forallb] in Hls. apply andb_prop in Hls as [Hl Hls].
  apply negb_true_iff in Hl. cbn [fold_left].
  assert (Hstep : exists t' b', collect (t, s, b) l = (t', s, b') /\ t' <> target_subject).
  { unfold collect. rewrite Hl.
    destruct (Str.startswith l "#").
    - destruct (Str.startswith l "#body"); [now exists target_body, b | now exists t, b].
    - rewrite (proj2 (Z.eqb_neq _ _) Ht).
      destruct (t =? target_body)%Z; [|now exists t, b].
      eexists t, _. split; [reflexivity | exact Ht]. }
  destruct Hstep as (t' & b' & -> & Ht'). now apply IH.
Qed.

(** X20.  Without a line that begins with [#body] in the substituted
    template the body [get_email] returns is empty, and without a line
    that begins with [#subject] the subject is empty. *)
Theorem get_email_section_needs_marker
    w app_name app_version app_url changes path raw template st :
  files w !! path = Some raw ->
  substitute raw app_name app_version app_url changes = Returns template ->
  (no_line_with "#body" template = true ->
   exists subject,
     fst (get_email w app_name app_version app_url changes path st)
     = Returns (VStr subject, VStr EmptyString))
  /\ (no_line_with "#subject" template = true ->
      exists body,
        fst (get_email w app_name app_version app_url changes path st)
        = Returns (VStr EmptyString, VStr body)).
Proof.
  intros Hfile Hsub. rewrite get_email_run, Hfile, Hsub. cbn [fst obind].
  unfold sections, no_line_with. split; intros Hno.
  - destruct (fold_no_body _ Hno 0%Z EmptyString EmptyString) as (t' & s' & -> & _);
      [discriminate|]. now eexists.
  - destruct (fold_no_subject _ Hno 0%Z EmptyString EmptyString) as (t' & b' & -> & _);
      [discriminate|]. now eexists.
Qed.

Lemma get_email_section_needs_marker_witness :
  exists subject,
    fst (get_email (Example.w 200 200 EmptyString) "Foo" "1.0" "http://x" "-"
           "comment.txt" init)
    = Returns (VStr subject, VStr EmptyString).
Proof.
  exact (proj1 (get_email_section_needs_marker (Example.w 200 200 EmptyString)
                  "Foo" "1.0" "http://x" "-" "comment.txt" "#subject
#hello
world" "#subject
#hello
world" init eq_refl eq_refl) eq_refl).
Defined.


Lemma posted_urls_app a b : posted_urls (a ++ b) = (posted_urls a ++ posted_urls b)%list.
Proof.
  induction a as [|[] a IH]; cbn [app posted_urls]; now rewrite ?IH.
Qed.

Lemma opened_paths_app a b : opened_paths (a ++ b) = (opened_paths a ++ opened_paths b)%list.
Proof.
  induction a as [|[] a IH]; cbn [app opened_paths]; now rewrite ?IH.
Qed.

(** The stages of a run of the driver that reaches the notifier. *)
Lemma main_sent_inv w o st res st' :
  main w o st = (res, st') ->
  res = Returns tt \/ res = Exits ZAPIER_ERROR_CODE ->
  exists version app_file st1 target link st2 changes st3 subject body st4 sent,
    get_app w (release_dir o) st = (Returns (VStr version, app_file), st1)
    /\ get_target_file_name (app_name o) version = Returns target
    /\ upload_to_dropbox w target app_file (dropbox_token o) (dropbox_folder o) st1
       = (Returns (VStr link), st2)
    /\ get_changes w (changelog_file o) st2 = (Returns (VStr changes), st3)
    /\ get_email w (app_name o) version link changes (template_file o) st3
       = (Returns (VStr subject, VStr body), st4)
    /\ send_email w (zapier_hook o) (email_to o) (VStr subject) (VStr body) st4
       = (Returns sent, st')
    /\ res = if sent then Returns tt else Exits ZAPIER_ERROR_CODE.
Proof.
  unfold main. intros Hmain Hres.
  assert (Hstop : forall (r : outcome unit) s,
             (r, s) = (res, st') ->
             match r with Returns _ => False | Exits _ => False | _ => True end -> False).
  { intros r s [= <- <-] Hr. now destruct Hres as [-> | ->]. }
  unfold bind at 1 in Hmain.
  pose proof (ensures_get_app w (release_dir o) (fun _ => False) st) as Hx.
  destruct (get_app w (release_dir o) st) as [[[av af]| | |] st1] eqn:Happ;
    cbn [fst] in Hx; try contradiction; try (now apply Hstop in Hmain). clear Hx.
  unfold bind at 1, lift at 1 in Hmain.
  destruct av as [| | |version| |]; cbn [as_str obind] in Hmain;
    try (now apply Hstop in Hmain).
  assert (Htarget : exists target, get_target_file_name (app_name o) version = Returns target).
  { unfold get_target_file_name. rewrite format_target_name. now eexists. }
  destruct Htarget as [target Htarget]. rewrite Htarget in Hmain.
  unfold bind at 1 in Hmain.
  pose proof (ensures_upload_to_dropbox w target af (dropbox_token o) (dropbox_folder o)
                (fun _ => False) st1) as Hurl.
  destruct (upload_to_dropbox w target af (dropbox_token o) (dropbox_folder o) st1)
    as [[file_url| | |] st2] eqn:Hup;
    cbn [fst] in Hurl; try contradiction; try (now apply Hstop in Hmain).
  destruct Hurl as [-> | [link ->]].
  { cbn in Hmain. injection Hmain as <- <-. exfalso. destruct Hres; discriminate. }
  unfold bind at 1 in Hmain. cbn [is_None when ret] in Hmain.
  unfold bind at 1 in Hmain.
  pose proof (get_changes_run w (changelog_file o) st2) as Hch.
  destruct (files w !! changelog_file o) as [doc|]; rewrite Hch in Hmain;
    [|now apply Hstop in Hmain].
  unfold bind at 1 in Hmain. cbn [is_None when ret] in Hmain.
  unfold bind at 1, lift at 1 in Hmain. cbn [as_str] in Hmain.
  unfold bind at 1, lift at 1 in Hmain. cbn [as_str] in Hmain.
  unfold bind at 1, lift at 1 in Hmain. cbn [as_str] in Hmain.
  unfold bind at 1 in Hmain.
  pose proof (get_email_run w (app_name o) version link
                (drop_headings (drop_last (before "##" doc))) (template_file o)
                (record [Opened (changelog_file o)] st2)) as Hem.
  pose proof (format_no_exit) as Hfmt.
  destruct (files w !! template_file o) as [raw|]; rewrite Hem in Hmain;
    [|now apply Hstop in Hmain].
  unfold substitute in Hem, Hmain.
  destruct (Str.format raw _) as [template| |code|] eqn:Hsub; cbn [obind] in Hem, Hmain;
    try (now apply Hstop in Hmain); [|now apply Hfmt in Hsub].
  unfold bind at 1 in Hmain. cbn [is_None orb when ret] in Hmain.
  unfold bind at 1 in Hmain.
  pose proof (ensures_send_email w (zapier_hook o) (email_to o)
                (VStr (fst (sections template))) (VStr (snd (sections template)))
                (fun _ => False) (record [Opened (template_file o)]
                                    (record [Opened (changelog_file o)] st2))) as Hx.
  destruct (send_email w (zapier_hook o) (email_to o) _ _ _)
    as [[sent| | |] st5] eqn:Hsend;
    cbn [fst] in Hx; try contradiction; try (now apply Hstop in Hmain).
  assert (Hend : st5 = st' /\ res = if sent then Returns tt else Exits ZAPIER_ERROR_CODE).
  { destruct sent; unfold when, exit, lift, ret in Hmain; cbn [negb] in Hmain;
      injection Hmain as <- <-; now split. }
  destruct Hend as [<- Hend].
  exists version, af, st1, target, link, st2, (drop_headings (drop_last (before "##" doc))),
    (record [Opened (changelog_file o)] st2),
    (fst (sections template)), (snd (sections template)),
    (record [Opened (template_file o)] (record [Opened (changelog_file o)] st2)), sent.
  now rewrite Hch, Hem.
Qed.

Lemma last_after {A} (a : A) l x y z : last (a :: l ++ [x; y; z]) = Some z.
Proof.
  replace (a :: l ++ [x; y; z]) with ((a :: l ++ [x; y]) ++ [z])%list
    by (cbn [app]; now rewrite <- app_assoc).
  apply last_snoc.
Qed.

Lemma upload_run_success w source token st evs res link :
  upload_run w source token st evs res ->
  res = Returns (VStr link) ->
  posted_urls evs = [DROPBOX_DELETE_URL; DROPBOX_UPLOAD_URL; DROPBOX_SHARE_URL]
  /\ opened_paths evs = [source].
Proof. destruct 1; try discriminate. now intros _. Qed.

(** X21.  When the driver returns, every stage returned: the version of
    the descriptor named the file, the uploader returned a link, that
    link and the changes went into the email, and the subject and body of
    that email are what the notifier sent, with success. *)
Theorem main_success_flow w o st st' :
  main w o st = (Returns tt, st') ->
  exists version app_file st1 target link st2 changes st3 subject body st4,
    get_app w (release_dir o) st = (Returns (VStr version, app_file), st1)
    /\ get_target_file_name (app_name o) version = Returns target
    /\ upload_to_dropbox w target app_file (dropbox_token o) (dropbox_folder o) st1
       = (Returns (VStr link), st2)
    /\ get_changes w (changelog_file o) st2 = (Returns (VStr changes), st3)
    /\ get_email w (app_name o) version link changes (template_file o) st3
       = (Returns (VStr subject, VStr body), st4)
    /\ send_email w (zapier_hook o) (email_to o) (VStr subject) (VStr body) st4
       = (Returns true, st').
Proof.
  intros Hmain.
  destruct (main_sent_inv w o st _ _ Hmain (or_introl eq_refl))
    as (version & af & st1 & target & link & st2 & changes & st3 & subject & body
        & st4 & sent & Happ & Htarget & Hup & Hch & Hem & Hsend & Hres).
  destruct sent; [|discriminate Hres].
  now exists version, af, st1, target, link, st2, changes, st3, subject, body, st4.
Qed.

Lemma main_success_flow_witness :
  let w := Example.w 200 200 "https://www.dropbox.com/s/k/myapp_1_03.apk?dl=0" in
  exists version app_file st1 target link st2 changes st3 subject body st4,
    get_app w "build" init = (Returns (VStr version, app_file), st1)
    /\ get_target_file_name "MyApp" version = Returns target
    /\ upload_to_dropbox w target app_file "token" "releases" st1
       = (Returns (VStr link), st2)
    /\ get_changes w "CHANGELOG.md" st2 = (Returns (VStr changes), st3)
    /\ get_email w "MyApp" version link changes "mail.txt" st3
       = (Returns (VStr subject, VStr body), st4)
    /\ send_email w "https://hooks.zapier.com/hooks/catch/1/" "team@example.org"
         (VStr subject) (VStr body) st4
       = (Returns true, snd (main w Example.o init)).
Proof.
  intros w.
  refine (main_success_flow w Example.o init (snd (main w Example.o init)) _).
  vm_compute. reflexivity.
Defined.


(** The stages of the driver that got as far as the notifier: four
    requests, four files, and the answer of the hook last. *)
Lemma main_sent_trace w o st res st' :
  main w o st = (res, st') ->
  res = Returns tt \/ res = Exits ZAPIER_ERROR_CODE ->
  exists app_file rq r,
    posted_urls (events_since st st')
    = [DROPBOX_DELETE_URL; DROPBOX_UPLOAD_URL; DROPBOX_SHARE_URL; zapier_hook o]
    /\ opened_paths (events_since st st')
       = [os_path_join (release_dir o) "output.json"; app_file;
          changelog_file o; template_file o]
    /\ last (events_since st st') = Some (Posted rq (Some r))
    /\ url rq = zapier_hook o
    /\ (res = Returns tt <-> status_code r = codes_ok).
Proof.
  intros Hmain Hres.
  destruct (main_sent_inv w o st _ _ Hmain Hres)
    as (version & af & st1 & target & link & st2 & changes & st3 & subject & body
        & st4 & sent & Happ & Htarget & Hup & Hch & Hem & Hsend & Hend).
  apply get_app_trace in Happ. subst st1.
  destruct (upload_to_dropbox_run w target af (dropbox_token o) (dropbox_folder o)
              (record [Opened (os_path_join (release_dir o) "output.json")] st))
    as (evs & res' & Hrun & Hevs).
  rewrite Hup in Hrun. injection Hrun as <- ->.
  destruct (upload_run_success _ _ _ _ _ _ _ Hevs eq_refl) as [Hposted Hopened].
  rewrite get_changes_run in Hch. injection Hch as _ <-.
  rewrite get_email_run in Hem. injection Hem as _ <-.
  rewrite send_email_run in Hsend.
  match type of Hsend with
  | (match ?a with _ => _ end, record [Posted ?q _] _) = _ =>
      destruct a as [r|] eqn:Hanswer; [|discriminate Hsend]; exists af, q, r
  end.
  injection Hsend as <- <-.
  unfold events_since. cbn [trace record with_path with_mail].
  rewrite <- !app_assoc, drop_app_length.
  rewrite !posted_urls_app, !opened_paths_app, Hposted, Hopened.
  cbn [posted_urls opened_paths app url send_call].
  repeat split; try reflexivity.
  - apply last_after.
  - intros ->. destruct (status_code r =? codes_ok)%Z eqn:Hs; [|discriminate Hend].
    now apply Z.eqb_eq.
  - intros Hs. apply Z.eqb_eq in Hs. now rewrite Hs in Hend.
Qed.

(** X22.  A run of the driver that returns posted exactly four requests,
    to the Dropbox delete, upload and share addresses and to the hook,
    and opened exactly the descriptor, the artifact, the changelog and
    the template, in that order; its last event is the answer of the
    hook, with the success status. *)
Theorem main_returned_trace w o st st' :
  main w o st = (Returns tt, st') ->
  exists app_file rq r,
    posted_urls (events_since st st')
    = [DROPBOX_DELETE_URL; DROPBOX_UPLOAD_URL; DROPBOX_SHARE_URL; zapier_hook o]
    /\ opened_paths (events_since st st')
       = [os_path_join (release_dir o) "output.json"; app_file;
          changelog_file o; template_file o]
    /\ last (events_since st st') = Some (Posted rq (Some r))
    /\ url rq = zapier_hook o
    /\ status_code r = codes_ok.
Proof.
  intros Hmain.
  destruct (main_sent_trace w o st _ _ Hmain (or_introl eq_refl))
    as (af & rq & r & Hposted & Hopened & Hlast & Hurl & Hstatus).
  exists af, rq, r. repeat split; try assumption. now apply Hstatus.
Qed.

Lemma main_returned_trace_witness :
  let w := Example.w 200 200 "https://www.dropbox.com/s/k/myapp_1_03.apk?dl=0" in
  exists app_file rq r,
    posted_urls (events_since init (snd (main w Example.o init)))
    = [DROPBOX_DELETE_URL; DROPBOX_UPLOAD_URL; DROPBOX_SHARE_URL;
       "https://hooks.zapier.com/hooks/catch/1/"]
    /\ opened_paths (events_since init (snd (main w Example.o init)))
       = ["build/output.json"; app_file; "CHANGELOG.md"; "mail.txt"]
    /\ last (events_since init (snd (main w Example.o init))) = Some (Posted rq (Some r))
    /\ url rq = "https://hooks.zapier.com/hooks/catch/1/"
    /\ status_code r = codes_ok.
Proof.
  intros w.
  refine (main_returned_trace w Example.o init (snd (main w Example.o init)) _).
  vm_compute. reflexivity.
Defined.

(** X26.  Once the command line is parsed into the options, a run of the
    stages that leaves with exit code 2 went through all of them: it
    posted exactly four requests, to the Dropbox delete, upload and share
    addresses and to the hook, opened exactly the descriptor, the
    artifact, the changelog and the template, in that order, and its last
    event is an answer of the hook whose status is not the success
    status. *)
Theorem main_exit_2_trace w o st st' :
  main w o st = (Exits ZAPIER_ERROR_CODE, st') ->
  exists app_file rq r,
    posted_urls (events_since st st')
    = [DROPBOX_DELETE_URL; DROPBOX_UPLOAD_URL; DROPBOX_SHARE_URL; zapier_hook o]
    /\ opened_paths (events_since st st')
       = [os_path_join (release_dir o) "output.json"; app_file;
          changelog_file o; template_file o]
    /\ last (events_since st st') = Some (Posted rq (Some r))
    /\ url rq = zapier_hook o
    /\ status_code r <> codes_ok.
Proof.
  intros Hmain.
  destruct (main_sent_trace w o st _ _ Hmain (or_intror eq_refl))
    as (af & rq & r & Hposted & Hopened & Hlast & Hurl & Hstatus).
  exists af, rq, r. repeat split; try assumption.
  intros Hs. apply Hstatus in Hs. discriminate Hs.
Qed.

Lemma main_exit_2_trace_witness :
  let w := Sample.w Example.disk (Some Example.descriptor)
             (Some (Sample.plain 200)) (Some (Sample.plain 200))
             (Some (Sample.linked 200 "https://www.dropbox.com/s/k/myapp_1_03.apk?dl=0"))
             (Some (Sample.plain 500)) in
  exists app_file rq r,
    posted_urls (events_since init (snd (main w Example.o init)))
    = [DROPBOX_DELETE_URL; DROPBOX_UPLOAD_URL; DROPBOX_SHARE_URL;
       "https://hooks.zapier.com/hooks/catch/1/"]
    /\ opened_paths (events_since init (snd (main w Example.o init)))
       = ["build/output.json"; app_file; "CHANGELOG.md"; "mail.txt"]
    /\ last (events_since init (snd (main w Example.o init))) = Some (Posted rq (Some r))
    /\ url rq = "https://hooks.zapier.com/hooks/catch/1/"
    /\ status_code r <> codes_ok.
Proof.
  intros w.
  refine (main_exit_2_trace w Example.o init (snd (main w Example.o init)) _).
  vm_compute. reflexivity.
Defined.


Lemma settled_obind {A B} (r : outcome A) (k : A -> outcome B) :
  settled r -> (forall a, settled (k a)) -> settled (obind r k).
Proof. destruct r; cbn; auto. Qed.

Lemma settled_getitem0 v : settled (getitem0 v).
Proof. destruct v as [| | |[]|[]|]; exact I. Qed.

Lemma settled_getitem k v : settled (getitem k v).
Proof. destruct v; try exact I. cbn. now destruct (_ !! _). Qed.

Lemma settled_get_app w dir st : settled (fst (get_app w dir st)).
Proof.
  assert (Hitem : forall json_data k,
             settled (obind (getitem0 json_data)
                        (fun e => obind (getitem "apkInfo" e) (getitem k)))).
  { intros. apply settled_obind; [apply settled_getitem0|]. intros e.
    apply settled_obind; [apply settled_getitem|]. intros i. apply settled_getitem. }
  unfold get_app, bind. rewrite read_file_run.
  destruct (files w !! _) as [text|]; [|exact I].
  unfold lift, json_load. destruct (json_loads w text) as [json_data|]; [|exact I].
  pose proof (Hitem json_data "versionName") as Hv.
  pose proof (Hitem json_data "outputFile") as Hf.
  destruct (obind (getitem0 json_data) _) as [v| | |]; try exact Hv.
  destruct (obind (getitem0 json_data) _) as [u| | |]; try exact Hf.
  now destruct u.
Qed.

(** X23.  When [get_app] does not return a descriptor whose version is a
    string, the driver ends with an exception, having opened
    [output.json] and nothing else: no request is posted. *)
Theorem main_fails_before_network w o st :
  (forall version app_file,
      fst (get_app w (release_dir o) st) <> Returns (VStr version, app_file)) ->
  (exists e, fst (main w o st) = Raises e)
  /\ snd (main w o st)
     = record [Opened (os_path_join (release_dir o) "output.json")] st.
Proof.
  intros Hno. destruct (main w o st) as [res st'] eqn:Hmain. cbn [fst snd].
  unfold main in Hmain. unfold bind at 1 in Hmain.
  pose proof (settled_get_app w (release_dir o) st) as Hs.
  pose proof (get_app_trace w (release_dir o) st _ _ (surjective_pairing _)) as He.
  destruct (get_app w (release_dir o) st) as [[[av af]| | |] st1];
    cbn [fst snd] in *; try contradiction; subst st1;
    [|injection Hmain as <- <-; split; [now eexists | reflexivity]].
  unfold bind at 1, lift at 1 in Hmain.
  destruct av as [| | |version| |]; cbn [as_str obind] in Hmain;
    try (injection Hmain as <- <-; split; [now eexists | reflexivity]).
  now destruct (Hno version af).
Qed.

Lemma main_fails_before_network_witness :
  snd (main (Sample.w ∅ None None None None None) Example.o init)
  = record [Opened "build/output.json"] init.
Proof.
  refine (proj2 (main_fails_before_network (Sample.w ∅ None None None None None)
                   Example.o init _)).
  intros version app_file. vm_compute. discriminate.
Defined.


Lemma main_exit1_inv w o st st' :
  main w o st = (Exits DROPBOX_ERROR_CODE, st') ->
  exists version app_file st1 target,
    get_app w (release_dir o) st = (Returns (VStr version, app_file), st1)
    /\ get_target_file_name (app_name o) version = Returns target
    /\ upload_to_dropbox w target app_file (dropbox_token o) (dropbox_folder o) st1
       = (Returns VNone, st').
Proof.
  unfold main. intros Hmain.
  assert (Hstop : forall (r : outcome unit) s,
             (r, s) = (Exits DROPBOX_ERROR_CODE, st') ->
             match r with Exits c => c <> DROPBOX_ERROR_CODE | _ => True end -> False).
  { intros r s [= -> _] Hr. now apply Hr. }
  unfold bind at 1 in Hmain.
  pose proof (ensures_get_app w (release_dir o) (fun _ => False) st) as Hx.
  destruct (get_app w (release_dir o) st) as [[[av af]| | |] st1] eqn:Happ;
    cbn [fst] in Hx; try contradiction; try (now apply Hstop in Hmain). clear Hx.
  unfold bind at 1, lift at 1 in Hmain.
  destruct av as [| | |version| |]; cbn [as_str obind] in Hmain;
    try (now apply Hstop in Hmain).
  assert (Htarget : exists target, get_target_file_name (app_name o) version = Returns target).
  { unfold get_target_file_name. rewrite format_target_name. now eexists. }
  destruct Htarget as [target Htarget]. rewrite Htarget in Hmain.
  unfold bind at 1 in Hmain.
  pose proof (ensures_upload_to_dropbox w target af (dropbox_token o) (dropbox_folder o)
                (fun _ => False) st1) as Hurl.
  destruct (upload_to_dropbox w target af (dropbox_token o) (dropbox_folder o) st1)
    as [[file_url| | |] st2] eqn:Hup;
    cbn [fst] in Hurl; try contradiction; try (now apply Hstop in Hmain).
  destruct Hurl as [-> | [link ->]].
  { cbn in Hmain. injection Hmain as <-. now exists version, af, st1, target. }
  exfalso.
  unfold bind at 1 in Hmain. cbn [is_None when ret] in Hmain.
  unfold bind at 1 in Hmain.
  pose proof (get_changes_run w (changelog_file o) st2) as Hch.
  destruct (files w !! changelog_file o) as [doc|]; rewrite Hch in Hmain;
    [|now apply Hstop in Hmain].
  unfold bind at 1 in Hmain. cbn [is_None when ret] in Hmain.
  unfold bind at 1, lift at 1 in Hmain. cbn [as_str] in Hmain.
  unfold bind at 1, lift at 1 in Hmain. cbn [as_str] in Hmain.
  unfold bind at 1, lift at 1 in Hmain. cbn [as_str] in Hmain.
  unfold bind at 1 in Hmain.
  pose proof (get_email_run w (app_name o) version link
                (drop_headings (drop_last (before "##" doc))) (template_file o)
                (record [Opened (changelog_file o)] st2)) as Hem.
  pose proof (format_no_exit) as Hfmt.
  destruct (files w !! template_file o) as [raw|]; rewrite Hem in Hmain;
    [|now apply Hstop in Hmain].
  unfold substitute in Hem, Hmain.
  destruct (Str.format raw _) as [template| |code|] eqn:Hsub; cbn [obind] in Hem, Hmain;
    try (now apply Hstop in Hmain); [|now apply Hfmt in Hsub].
  unfold bind at 1 in Hmain. cbn [is_None orb when ret] in Hmain.
  unfold bind at 1 in Hmain.
  pose proof (ensures_send_email w (zapier_hook o) (email_to o)
                (VStr (fst (sections template))) (VStr (snd (sections template)))
                (fun _ => False) (record [Opened (template_file o)]
                                    (record [Opened (changelog_file o)] st2))) as Hx.
  destruct (send_email w (zapier_hook o) (email_to o) _ _ _)
    as [[sent| | |] st5] eqn:Hsend;
    cbn [fst] in Hx; try contradiction; try (now apply Hstop in Hmain).
  destruct sent; unfold when, exit, lift, ret in Hmain; cbn [negb] in Hmain;
    discriminate Hmain.
Qed.

(** X24.  When the driver leaves with exit code 1, the upload or the
    share-link call was answered with a status that is not the success
    status, and the last event of the run is the failure line of the
    uploader. *)
Theorem main_exit_1_diagnosed w o st st' :
  main w o st = (Exits DROPBOX_ERROR_CODE, st') ->
  (exists rq r,
      In (Posted rq (Some r)) (events_since st st')
      /\ (url rq = DROPBOX_UPLOAD_URL \/ url rq = DROPBOX_SHARE_URL)
      /\ status_code r <> codes_ok)
  /\ (last (events_since st st') = Some (Printed "Failed: upload file to Dropbox")
      \/ last (events_since st st')
         = Some (Printed "Failed: get share link from Dropbox")).
Proof.
  intros Hmain.
  destruct (main_exit1_inv w o st st' Hmain)
    as (version & af & st1 & target & Happ & _ & Hup).
  apply get_app_trace in Happ. subst st1.
  destruct (upload_to_dropbox_run w target af (dropbox_token o) (dropbox_folder o)
              (record [Opened (os_path_join (release_dir o) "output.json")] st))
    as (evs & res' & Hrun & Hevs).
  rewrite Hup in Hrun. injection Hrun as <- ->.
  destruct (upload_run_none _ _ _ _ _ _ Hevs eq_refl) as [(rq & r & Hin & Hurl & Hs) Hlast].
  unfold events_since. cbn [trace record with_path].
  rewrite <- app_assoc, drop_app_length. cbn [app].
  split.
  - exists rq, r. split; [now right | now split].
  - destruct evs as [|e evs]; [destruct Hin|]. rewrite last_cons.
    destruct Hlast as [-> | ->]; [now left | now right].
Qed.

Lemma main_exit_1_diagnosed_witness :
  let st' := snd (main (Example.w 200 409 "https://www.dropbox.com/s/k/myapp_1_03.apk?dl=0") Example.o init) in
  last (events_since init st') = Some (Printed "Failed: upload file to Dropbox")
  \/ last (events_since init st')
     = Some (Printed "Failed: get share link from Dropbox").
Proof.
  intros st'.
  refine (proj2 (main_exit_1_diagnosed (Example.w 200 409 "https://www.dropbox.com/s/k/myapp_1_03.apk?dl=0") Example.o init st' _)).
  vm_compute. reflexivity.
Defined.


(** X25.  The only codes the driver passes to [exit] are 1 and 2. *)
Theorem main_exit_codes w o st code st' :
  main w o st = (Exits code, st') ->
  code = DROPBOX_ERROR_CODE \/ code = ZAPIER_ERROR_CODE.
Proof.
  intros Hmain. pose proof (ensures_main w o st) as H.
  now rewrite Hmain in H.
Qed.

Lemma main_exit_codes_witness : 2%Z = DROPBOX_ERROR_CODE \/ 2%Z = ZAPIER_ERROR_CODE.
Proof.
  pose (w := Sample.w Example.disk (Some Example.descriptor) (Some (Sample.plain 200))
               (Some (Sample.plain 200)) (Some (Sample.linked 200 "https://www.dropbox.com/s/k/myapp_1_03.apk?dl=0"))
               (Some (Sample.plain 500))).
  refine (main_exit_codes w Example.o init 2 (snd (main w Example.o init)) _).
  vm_compute. reflexivity.
Defined.
